(** * Library management: the transaction engine of [Library_management.py]

    A shallow embedding of the classes [Book], [Student] and [Librarian]
    and of the handlers of [LibraryGUI], with the properties of issue,
    return, penalty, search and persistence.

    Conventions of the embedding.
    - A [string] is a Python [str] whose characters are the code points
      U+0000 to U+00FF, one [ascii] for each.  On such text [lower],
      [isdigit] and [int] are those of CPython 3.11: [lower] folds the
      capitals A to Z and U+00C0 to U+00DE, [isdigit] accepts the decimal
      digits and the three superscript digits, [int] reads a decimal
      literal with its white space, sign and underscores and refuses more
      than 4300 digits.  What [lower] does to other text is shown on five
      Greek letters in the module [Greek].
    - The lists [self.books] and [self.students] hold objects that are
      mutated in place; the model finds the index of the first match
      (as [next(...)] does) and rewrites that position.
    - [datetime.now()] is an input of every operation that reads the
      clock: the proleptic Gregorian ordinal of the current day
      ([datetime.now().toordinal()]).  Only the calendar day is observable
      in the program, and the two reads of the clock inside one call of
      [issue_book] are given the same value.
    - A call either returns a value or raises; [outcome] records which.
    - Each of the three CSV files is kept as the list of its rows, a row
      being the text of the columns named in the header that the program
      writes; a file with rows of another length is not represented.
      Writing stores the rows given and always succeeds; reading gives
      them back with the line ends inside their fields translated, as a
      file opened in text mode is read. *)

From stdpp Require Import base list strings numbers pretty.
From Stdlib Require Import ZArith String Ascii Lia.

Open Scope Z_scope.

(** ** Python built-ins on text *)

Module Py.

Inductive exn := ValueError | IndexError | OverflowError.

Inductive outcome (A : Type) :=
| Return (a : A)
| Raise (e : exn).
Arguments Return {A} a.
Arguments Raise {A} e.

(** The capital letters below U+0100: A to Z, and U+00C0 to U+00DE
    without the multiplication sign U+00D7.  The small letter of each is
    32 places further on. *)
Definition is_upper (c : ascii) : bool :=
  let n := nat_of_ascii c in
  (Nat.leb 65 n && Nat.leb n 90)
  || (Nat.leb 192 n && Nat.leb n 222 && negb (Nat.eqb n 215)).

(** The decimal digits 0 to 9. *)
Definition is_digit (c : ascii) : bool :=
  Nat.leb 48 (nat_of_ascii c) && Nat.leb (nat_of_ascii c) 57.

(** The superscripts two, three and one (U+00B2, U+00B3, U+00B9): digits
    for [isdigit], but not decimal digits. *)
Definition is_superscript (c : ascii) : bool :=
  let n := nat_of_ascii c in
  Nat.eqb n 178 || Nat.eqb n 179 || Nat.eqb n 185.

(** The white space that [int] passes over: tab to carriage return, the
    space, the next-line control U+0085 and the no-break space U+00A0. *)
Definition is_space (c : ascii) : bool :=
  let n := nat_of_ascii c in
  (Nat.leb 9 n && Nat.leb n 13) || Nat.eqb n 32 || Nat.eqb n 133 || Nat.eqb n 160.

Definition digit_val (c : ascii) : Z := Z.of_nat (nat_of_ascii c) - 48.

Definition lower_char (c : ascii) : ascii :=
  if is_upper c then ascii_of_nat (nat_of_ascii c + 32) else c.

(** [s.lower()] *)
Fixpoint lower (s : string) : string :=
  match s with
  | EmptyString => EmptyString
  | String c s' => String (lower_char c) (lower s')
  end.

(** [s.startswith(p)] *)
Fixpoint startswith (p s : string) : bool :=
  match p, s with
  | EmptyString, _ => true
  | String _ _, EmptyString => false
  | String a p', String b s' => bool_decide (a = b) && startswith p' s'
  end.

(** [needle in hay] for two strings *)
Fixpoint contains (needle hay : string) : bool :=
  startswith needle hay ||
  match hay with
  | EmptyString => false
  | String _ hay' => contains needle hay'
  end.

(** [sep.join(l)] *)
Fixpoint join (sep : string) (l : list string) : string :=
  match l with
  | [] => EmptyString
  | [x] => x
  | x :: l' => x +:+ sep +:+ join sep l'
  end.

(** [s.split(sep)] for a non-empty separator: the pieces between the
    occurrences of [sep], found left to right without overlap.  [skip]
    counts the characters of a separator still to be passed over and
    [cur] is the piece read so far. *)
Fixpoint split_go (sep s : string) (skip : nat) (cur : string) : list string :=
  match s with
  | EmptyString => [cur]
  | String c s' =>
      match skip with
      | S k => split_go sep s' k cur
      | O =>
          if startswith sep s
          then cur :: split_go sep s' (Nat.pred (String.length sep)) EmptyString
          else split_go sep s' O (cur +:+ String c EmptyString)
      end
  end.

Definition split (sep s : string) : list string := split_go sep s O EmptyString.

(** [s[:-1]] *)
Fixpoint drop_last (s : string) : string :=
  match s with
  | EmptyString => EmptyString
  | String c EmptyString => EmptyString
  | String c s' => String c (drop_last s')
  end.

(** Decimal digits only. *)
Fixpoint all_digits (s : string) : bool :=
  match s with
  | EmptyString => true
  | String c s' => is_digit c && all_digits s'
  end.

(** Digits only, the superscripts among them. *)
Fixpoint all_isdigit (s : string) : bool :=
  match s with
  | EmptyString => true
  | String c s' => (is_digit c || is_superscript c) && all_isdigit s'
  end.

(** [s.isdigit()]: at least one character, and every character a digit;
    below U+0100 the digits are 0 to 9 and the three superscripts. *)
Definition isdigit (s : string) : bool :=
  match s with
  | EmptyString => false
  | _ => all_isdigit s
  end.

(** [str(n)] for an [int].  The text is given for every number; [str]
    itself refuses the numbers of more than [max_str_digits] digits, which
    [fits] below tells apart. *)
Definition str (n : Z) : string := pretty n.

(** The value of a run of decimal digits, most significant first. *)
Fixpoint digits_value (acc : Z) (s : string) : Z :=
  match s with
  | EmptyString => acc
  | String c s' => digits_value (10 * acc + digit_val c) s'
  end.

(** The limit that [int] and [str] put on the number of digits
    ([sys.get_int_max_str_digits()], as the interpreter starts). *)
Definition max_str_digits : Z := 4300.

(** Whether [str] writes [n] within the limit; the sign is not counted. *)
Definition fits (n : Z) : bool :=
  Z.of_nat (String.length (str (Z.abs n))) <=? max_str_digits.

(** The text after the white space at its front. *)
Fixpoint lstrip (s : string) : string :=
  match s with
  | EmptyString => EmptyString
  | String c s' => if is_space c then lstrip s' else s
  end.

(** The sign in front of a number, if any, and what follows it. *)
Definition sign_split (s : string) : bool * string :=
  match s with
  | EmptyString => (false, s)
  | String c s' =>
      if bool_decide (c = "-"%char) then (true, s')
      else if bool_decide (c = "+"%char) then (false, s')
      else (false, s)
  end.

(** The digits at the front of [s] and what follows them.  One underscore
    may stand between two digits and is passed over; an underscore that is
    not followed by a digit is an error. *)
Fixpoint scan_digits (s : string) : option (string * string) :=
  match s with
  | EmptyString => Some (EmptyString, EmptyString)
  | String c s' =>
      if is_digit c then
        match scan_digits s' with
        | Some (ds, rest) => Some (String c ds, rest)
        | None => None
        end
      else if bool_decide (c = "_"%char) then
        match s' with
        | String c' _ => if is_digit c' then scan_digits s' else None
        | EmptyString => None
        end
      else Some (EmptyString, s)
  end.

(** [int(s)] for a [str]: white space, an optional sign, decimal digits
    with single underscores between them, white space.  The first
    character after the sign must be a digit, and more digits than
    [max_str_digits] are refused. *)
Definition int (s : string) : outcome Z :=
  let (negative, body) := sign_split (lstrip s) in
  match body with
  | EmptyString => Raise ValueError
  | String c _ =>
      if is_digit c then
        match scan_digits body with
        | None => Raise ValueError
        | Some (ds, rest) =>
            if max_str_digits <? Z.of_nat (String.length ds) then Raise ValueError
            else
              match lstrip rest with
              | EmptyString =>
                  Return (if negative then - digits_value 0 ds else digits_value 0 ds)
              | String _ _ => Raise ValueError
              end
        end
      else Raise ValueError
  end.

(** Reading a file opened in text mode without [newline]: a carriage
    return, alone or with the line feed after it, is read as one line
    feed. *)
Fixpoint universal_newlines (s : string) : string :=
  match s with
  | EmptyString => EmptyString
  | String c s' =>
      if bool_decide (c = "013"%char)
      then
        String "010"%char
          match s' with
          | EmptyString => EmptyString
          | String c' s'' =>
              if bool_decide (c' = "010"%char)
              then universal_newlines s''
              else universal_newlines s'
          end
      else String c (universal_newlines s')
  end.

End Py.

(** ** Calendar dates, after the [datetime] module *)

Module Date.

Record date := mkdate { year : Z; month : Z; day : Z }.

Definition MAXORDINAL : Z := 3652059.

Definition DAYS_IN_MONTH (m : Z) : Z :=
  match m with
  | 1 => 31 | 2 => 28 | 3 => 31 | 4 => 30 | 5 => 31 | 6 => 30
  | 7 => 31 | 8 => 31 | 9 => 30 | 10 => 31 | 11 => 30 | 12 => 31
  | _ => -1
  end.

Definition DAYS_BEFORE_MONTH (m : Z) : Z :=
  match m with
  | 1 => 0 | 2 => 31 | 3 => 59 | 4 => 90 | 5 => 120 | 6 => 151
  | 7 => 181 | 8 => 212 | 9 => 243 | 10 => 273 | 11 => 304 | 12 => 334
  | _ => -1
  end.

Definition is_leap (y : Z) : bool :=
  (y mod 4 =? 0) && (negb (y mod 100 =? 0) || (y mod 400 =? 0)).

Definition days_before_year (y : Z) : Z :=
  let y1 := y - 1 in y1 * 365 + y1 / 4 - y1 / 100 + y1 / 400.

Definition days_in_month (y m : Z) : Z :=
  if (m =? 2) && is_leap y then 29 else DAYS_IN_MONTH m.

Definition days_before_month (y m : Z) : Z :=
  DAYS_BEFORE_MONTH m + (if (2 <? m) && is_leap y then 1 else 0).

Definition ymd2ord (y m d : Z) : Z :=
  days_before_year y + days_before_month y m + d.

(** [d.toordinal()] *)
Definition toordinal (d : date) : Z := ymd2ord (year d) (month d) (day d).

(** The check made when a date object is built. *)
Definition valid (d : date) : bool :=
  (1 <=? year d) && (year d <=? 9999) &&
  (1 <=? month d) && (month d <=? 12) &&
  (1 <=? day d) && (day d <=? days_in_month (year d) (month d)).

(** [date.fromordinal(n)] *)
Definition ord2ymd (n0 : Z) : date :=
  let n := n0 - 1 in
  let n400 := n / 146097 in
  let n := n mod 146097 in
  let n100 := n / 36524 in
  let n := n mod 36524 in
  let n4 := n / 1461 in
  let n := n mod 1461 in
  let n1 := n / 365 in
  let n := n mod 365 in
  let y := n400 * 400 + 1 + n100 * 100 + n4 * 4 + n1 in
  if (n1 =? 4) || (n100 =? 4) then mkdate (y - 1) 12 31
  else
    let leapyear := (n1 =? 3) && (negb (n4 =? 24) || (n100 =? 3)) in
    let m := Z.shiftr (n + 50) 5 in
    let preceding :=
      DAYS_BEFORE_MONTH m + (if (2 <? m) && leapyear then 1 else 0) in
    if n <? preceding
    then
      let m' := m - 1 in
      let preceding' :=
        preceding - (DAYS_IN_MONTH m' + (if (m' =? 2) && leapyear then 1 else 0)) in
      mkdate y m' (n - preceding' + 1)
    else mkdate y m (n - preceding + 1).

(** [d + timedelta(days=k)] on ordinals; out of the range of [date] it
    raises [OverflowError]. *)
Definition add_days (n k : Z) : Py.outcome Z :=
  if (1 <=? n + k) && (n + k <=? MAXORDINAL)
  then Py.Return (n + k) else Py.Raise Py.OverflowError.

Definition digit_char (n : Z) : ascii := ascii_of_nat (48 + Z.to_nat n).

Definition pad2 (n : Z) : string :=
  String (digit_char (n / 10 mod 10)) (String (digit_char (n mod 10)) EmptyString).

Definition pad4 (n : Z) : string :=
  String (digit_char (n / 1000 mod 10))
    (String (digit_char (n / 100 mod 10)) (pad2 n)).

(** [format(d, "%Y-%m-%d")]: four digits of year, two of month and day
    (the years that a clock shows have four digits of their own). *)
Definition strftime (d : date) : string :=
  pad4 (year d) +:+ "-" +:+ pad2 (month d) +:+ "-" +:+ pad2 (day d).

(** The text of the day with ordinal [n]. *)
Definition isoformat (n : Z) : string := strftime (ord2ymd n).

(** The month directive [%m]: the alternatives [1[0-2]], [0[1-9]], [[1-9]]
    tried in this order.  The next pattern character is a hyphen, which no
    shorter alternative can reach once a longer one has matched, so the
    first match decides. *)
Definition parse_month (s : string) : option (Z * string) :=
  match s with
  | String a (String b rest) =>
      if bool_decide (a = "1"%char) && Nat.leb 48 (nat_of_ascii b) && Nat.leb (nat_of_ascii b) 50
      then Some (10 + Py.digit_val b, rest)
      else if bool_decide (a = "0"%char) && Nat.leb 49 (nat_of_ascii b) && Nat.leb (nat_of_ascii b) 57
      then Some (Py.digit_val b, rest)
      else if Nat.leb 49 (nat_of_ascii a) && Nat.leb (nat_of_ascii a) 57
      then Some (Py.digit_val a, String b rest)
      else None
  | String a rest =>
      if Nat.leb 49 (nat_of_ascii a) && Nat.leb (nat_of_ascii a) 57
      then Some (Py.digit_val a, rest)
      else None
  | EmptyString => None
  end.

(** The day directive [%d]: [3[0-1]], [[1-2]\d], [0[1-9]], [[1-9]] and a
    space followed by [[1-9]], in this order; it ends the pattern, so the
    first alternative that matches is kept. *)
Definition parse_day (s : string) : option (Z * string) :=
  let nz c := Nat.leb 49 (nat_of_ascii c) && Nat.leb (nat_of_ascii c) 57 in
  match s with
  | String a (String b rest) =>
      if bool_decide (a = "3"%char) && Nat.leb 48 (nat_of_ascii b) && Nat.leb (nat_of_ascii b) 49
      then Some (30 + Py.digit_val b, rest)
      else if Nat.leb 49 (nat_of_ascii a) && Nat.leb (nat_of_ascii a) 50 && Py.is_digit b
      then Some (10 * Py.digit_val a + Py.digit_val b, rest)
      else if bool_decide (a = "0"%char) && nz b
      then Some (Py.digit_val b, rest)
      else if nz a
      then Some (Py.digit_val a, String b rest)
      else if bool_decide (a = " "%char) && nz b
      then Some (Py.digit_val b, rest)
      else None
  | String a rest =>
      if nz a then Some (Py.digit_val a, rest) else None
  | EmptyString => None
  end.

(** [datetime.strptime(s, "%Y-%m-%d")], as a date: the pattern must match
    a prefix of [s], nothing may remain after it, and the fields must form
    a date. *)
Definition strptime (s : string) : Py.outcome date :=
  match s with
  | String y1 (String y2 (String y3 (String y4 (String "-" rest)))) =>
      if Py.is_digit y1 && Py.is_digit y2 && Py.is_digit y3 && Py.is_digit y4
      then
        match parse_month rest with
        | Some (m, String "-" rest') =>
            match parse_day rest' with
            | Some (d, EmptyString) =>
                let y := 1000 * Py.digit_val y1 + 100 * Py.digit_val y2
                         + 10 * Py.digit_val y3 + Py.digit_val y4 in
                if valid (mkdate y m d) then Py.Return (mkdate y m d)
                else Py.Raise Py.ValueError
            | _ => Py.Raise Py.ValueError
            end
        | _ => Py.Raise Py.ValueError
        end
      else Py.Raise Py.ValueError
  | _ => Py.Raise Py.ValueError
  end.

End Date.

(** ** [str.lower] beyond U+00FF *)

(** Text over five letters of the Greek alphabet: the capitals alpha and
    sigma (U+0391 and U+03A3), the small alpha and sigma (U+03B1 and
    U+03C3) and the small final sigma (U+03C2). *)
Module Greek.

Inductive letter := Alpha | Sigma | alpha | sigma | final_sigma.

Definition text := list letter.

(** The code point of a letter. *)
Definition ord (c : letter) : Z :=
  match c with
  | Alpha => 913
  | Sigma => 931
  | alpha => 945
  | final_sigma => 962
  | sigma => 963
  end.

(** [s.lower()].  The small letter of a capital sigma depends on its
    place: it is the final sigma when a cased letter comes before it and
    none comes after it, and the small sigma otherwise.  The five letters
    are all cased and none is case-ignorable, so that [before] tells
    whether a letter came before, and the rest of the text whether one
    comes after. *)
Fixpoint lower_from (before : bool) (s : text) : text :=
  match s with
  | [] => []
  | c :: s' =>
      match c with
      | Alpha => alpha
      | Sigma =>
          match s' with
          | [] => if before then final_sigma else sigma
          | _ :: _ => sigma
          end
      | _ => c
      end :: lower_from true s'
  end.

Definition lower (s : text) : text := lower_from false s.

Fixpoint startswith (p s : text) : bool :=
  match p, s with
  | [], _ => true
  | _ :: _, [] => false
  | a :: p', b :: s' => (ord a =? ord b) && startswith p' s'
  end.

(** [needle in hay] *)
Fixpoint contains (needle hay : text) : bool :=
  startswith needle hay ||
  match hay with
  | [] => false
  | _ :: hay' => contains needle hay'
  end.

Record Book := mkBook { title : text; author : text }.

(** The test of [Librarian.search_book], on books of such text. *)
Definition search_book (books : list Book) (query : text) : list Book :=
  List.filter
    (λ book,
       contains (lower query) (lower (title book))
       || contains (lower query) (lower (author book)))
    books.

End Greek.

(** ** Sequencing of calls that may raise *)

Definition bind {A B : Type} (r : Py.outcome A) (k : A → Py.outcome B) : Py.outcome B :=
  match r with
  | Py.Return a => k a
  | Py.Raise e => Py.Raise e
  end.

Notation "'let!' x ':=' e 'in' k" := (bind e (fun x => k))
  (at level 10, x name, e at level 100, k at level 200).

(** ** Records of the library *)

Definition BASE_PENALTY_RATE : Z := 1.
Definition MAX_PENALTY : Z := 50.
Definition GRACE_PERIOD : Z := 2.

Record Book := mkBook {
  book_id : string;
  title : string;
  author : string;
  available_copies : Z
}.

Record Student := mkStudent {
  student_id : string;
  name : string;
  borrowed_books : list string
}.

(** One dictionary of [self.logs]. *)
Module Log.
Record entry := mk {
  transaction_type : string;
  book_id : string;
  student_id : string;
  date : string
}.
End Log.

(** The dictionary built by [Book.to_csv]. *)
Module BookDict.
Record t := mk {
  book_id : string;
  title : string;
  author : string;
  available_copies : Z
}.
End BookDict.

(** The dictionary built by [Student.to_csv]; as a row of [students.csv] it
    is read back with the same three text fields. *)
Module StudentDict.
Record t := mk {
  student_id : string;
  name : string;
  borrowed_books : string
}.
End StudentDict.

(** A row of [books.csv]: the writer turns the number of copies into text. *)
Module BookRow.
Record t := mk {
  book_id : string;
  title : string;
  author : string;
  available_copies : string
}.
End BookRow.

(** The rows of a file are records of text fields; [map_fields f] applies
    [f] to every field of a row. *)
Class Row (A : Type) := map_fields : (string → string) → A → A.

#[global] Instance BookRow_Row : Row BookRow.t :=
  λ f r, BookRow.mk (f (BookRow.book_id r)) (f (BookRow.title r))
                    (f (BookRow.author r)) (f (BookRow.available_copies r)).

#[global] Instance StudentDict_Row : Row StudentDict.t :=
  λ f r, StudentDict.mk (f (StudentDict.student_id r)) (f (StudentDict.name r))
                        (f (StudentDict.borrowed_books r)).

#[global] Instance Log_Row : Row Log.entry :=
  λ f r, Log.mk (f (Log.transaction_type r)) (f (Log.book_id r))
                (f (Log.student_id r)) (f (Log.date r)).

Record Librarian := mkLibrarian {
  books : list Book;
  students : list Student;
  logs : list Log.entry
}.

(** The three files; [None] is a file that does not exist. *)
Record Disk := mkDisk {
  books_csv : option (list BookRow.t);
  students_csv : option (list StudentDict.t);
  logs_csv : option (list Log.entry)
}.

(** The running program: the [Librarian] object and the files behind it. *)
Record System := mkSystem {
  lib : Librarian;
  disk : Disk
}.

(** ** The classes *)

(** [load_csv]: the rows of the file, read in text mode (the file is opened
    without [newline], where [save_csv] opens it with [newline='']); a
    file that does not exist gives no rows. *)
Definition load_csv {A : Type} `{Row A} (file : option (list A)) : list A :=
  match file with
  | Some rows => map (map_fields Py.universal_newlines) rows
  | None => []
  end.

(** [save_csv] replaces the file by the rows given. *)
Definition save_csv {A : Type} (data : list A) : option (list A) := Some data.

(** What [csv.DictWriter] writes for a dictionary of [Book.to_csv]. *)
Definition write_book_row (d : BookDict.t) : BookRow.t :=
  BookRow.mk (BookDict.book_id d) (BookDict.title d) (BookDict.author d)
             (Py.str (BookDict.available_copies d)).

(** [Book.__init__] on the fields of a row. *)
Definition Book_init (r : BookRow.t) : Py.outcome Book :=
  let! n := Py.int (BookRow.available_copies r) in
  Py.Return (mkBook (BookRow.book_id r) (BookRow.title r) (BookRow.author r) n).

Definition Book_to_csv (b : Book) : BookDict.t :=
  BookDict.mk (book_id b) (title b) (author b) (available_copies b).

(** [Student.__init__]; an empty list counts as false, like [None]. *)
Definition Student_init (sid nm : string) (bb : option (list string)) : Student :=
  mkStudent sid nm
    match bb with
    | None => []
    | Some [] => []
    | Some l => l
    end.

Definition Student_to_csv (s : Student) : StudentDict.t :=
  StudentDict.mk (student_id s) (name s) (Py.join "," (borrowed_books s)).

Definition can_borrow (s : Student) : bool :=
  (Z.of_nat (List.length (borrowed_books s)) <? 3).

(** [[f(x) for x in l]] where [f] may raise. *)
Fixpoint map_raise {A B : Type} (f : A → Py.outcome B) (l : list A) : Py.outcome (list B) :=
  match l with
  | [] => Py.Return []
  | x :: l' =>
      let! y := f x in
      let! ys := map_raise f l' in
      Py.Return (y :: ys)
  end.

(** [Librarian.__init__] *)
Definition Librarian_init (d : Disk) : Py.outcome Librarian :=
  let! bs := map_raise Book_init (load_csv (books_csv d)) in
  Py.Return
    (mkLibrarian bs
       (map (λ s, Student_init (StudentDict.student_id s) (StudentDict.name s)
                    (Some (Py.split "," (StudentDict.borrowed_books s))))
            (load_csv (students_csv d)))
       (load_csv (logs_csv d))).

Definition search_student (L : Librarian) (query : string) : list StudentDict.t :=
  map Student_to_csv
    (List.filter
       (λ student,
          Py.contains (Py.lower query) (Py.lower (name student))
          || bool_decide (query = student_id student))
       (students L)).

Definition search_book (L : Librarian) (query : string) : list BookDict.t :=
  map Book_to_csv
    (List.filter
       (λ book,
          Py.contains (Py.lower query) (Py.lower (title book))
          || Py.contains (Py.lower query) (Py.lower (author book)))
       (books L)).

(** [next((b for b in self.books if b.book_id == book_id), None)], with the
    position of the object found. *)
Definition find_book (L : Librarian) (bid : string) : option (nat * Book) :=
  list_find (λ b, book_id b = bid) (books L).

Definition find_student (L : Librarian) (sid : string) : option (nat * Student) :=
  list_find (λ s, student_id s = sid) (students L).

(** [l.remove(x)]: the first element equal to [x] goes. *)
Fixpoint list_remove_first (x : string) (l : list string) : list string :=
  match l with
  | [] => []
  | y :: l' => if bool_decide (y = x) then l' else y :: list_remove_first x l'
  end.

Definition calculate_penalty (issue_due_date return_date : string) : Py.outcome Z :=
  let! issue_date := Date.strptime issue_due_date in
  let! return_date_obj := Date.strptime return_date in
  let overdue_days :=
    (Date.toordinal return_date_obj - Date.toordinal issue_date) - GRACE_PERIOD in
  if overdue_days <=? 0 then Py.Return 0
  else Py.Return (Z.min (overdue_days * BASE_PENALTY_RATE) MAX_PENALTY).

Definition update_logs (w : System) (ttype bid sid : string) (now : Z) : System :=
  let L := lib w in
  let logs' := logs L ++ [Log.mk ttype bid sid (Date.isoformat now)] in
  mkSystem (mkLibrarian (books L) (students L) logs')
           (mkDisk (books_csv (disk w)) (students_csv (disk w)) (save_csv logs')).

Definition save_data (w : System) : System :=
  let L := lib w in
  mkSystem L
    (mkDisk (save_csv (map (λ b, write_book_row (Book_to_csv b)) (books L)))
            (save_csv (map Student_to_csv (students L)))
            (logs_csv (disk w))).

Definition loan_text (bid : string) (due : Z) : string :=
  bid +:+ " (Due: " +:+ Date.isoformat due +:+ ")".

Definition issue_book (w : System) (bid sid : string) (now : Z)
  : Py.outcome string * System :=
  let L := lib w in
  match find_book L bid, find_student L sid with
  | None, _ => (Py.Return "Book not found.", w)
  | Some _, None => (Py.Return "Student not found.", w)
  | Some (i, book), Some (j, student) =>
      if available_copies book <=? 0
      then (Py.Return "No copies available.", w)
      else if negb (can_borrow student)
      then (Py.Return "Student has reached the borrowing limit.", w)
      else
        match Date.add_days now 14 with
        | Py.Raise e => (Py.Raise e, w)
        | Py.Return due_date =>
            let book' :=
              mkBook (book_id book) (title book) (author book)
                     (available_copies book - 1) in
            let student' :=
              mkStudent (student_id student) (name student)
                        (borrowed_books student ++ [loan_text bid due_date]) in
            let w1 :=
              mkSystem (mkLibrarian (<[i:=book']> (books L))
                                    (<[j:=student']> (students L))
                                    (logs L))
                       (disk w) in
            let w2 := update_logs w1 "issue" bid sid now in
            let w3 := save_data w2 in
            (Py.Return ("Book issued successfully. Due date: "
                        +:+ Date.isoformat due_date), w3)
        end
  end.

Definition return_book (w : System) (bid sid return_date : string) (now : Z)
  : Py.outcome string * System :=
  let L := lib w in
  match find_book L bid, find_student L sid with
  | Some (i, book), Some (j, student) =>
      let borrowed := List.filter (λ b, Py.contains bid b) (borrowed_books student) in
      match borrowed with
      | [] => (Py.Return "This student did not borrow this book.", w)
      | first :: _ =>
          match Py.split "Due: " first !! 1%nat with
          | None => (Py.Raise Py.IndexError, w)
          | Some piece =>
              match calculate_penalty (Py.drop_last piece) return_date with
              | Py.Raise e => (Py.Raise e, w)
              | Py.Return penalty =>
                  let student' :=
                    mkStudent (student_id student) (name student)
                              (list_remove_first first (borrowed_books student)) in
                  let book' :=
                    mkBook (book_id book) (title book) (author book)
                           (available_copies book + 1) in
                  let w1 :=
                    mkSystem (mkLibrarian (<[i:=book']> (books L))
                                          (<[j:=student']> (students L))
                                          (logs L))
                             (disk w) in
                  let w2 := update_logs w1 "return" bid sid now in
                  let w3 := save_data w2 in
                  (Py.Return ("Book returned successfully. Penalty: $"
                              +:+ Py.str penalty), w3)
              end
          end
      end
  | _, _ => (Py.Return "Book or Student not found.", w)
  end.

(** ** The registration handlers of [LibraryGUI] *)

(** The truth value of a string: false when empty. *)
Definition truthy (s : string) : bool :=
  match s with
  | EmptyString => false
  | String _ _ => true
  end.

(** [LibraryGUI.add_book] on the text of its four entries; the result tells
    whether the book was added. *)
Definition add_book (w : System) (bid ttl auth copies : string)
  : Py.outcome bool * System :=
  if negb (truthy bid && truthy ttl && truthy auth && Py.isdigit copies)
  then (Py.Return false, w)
  else
    match Py.int copies with
    | Py.Raise e => (Py.Raise e, w)
    | Py.Return n =>
        let L := lib w in
        let new_book := mkBook bid ttl auth n in
        (Py.Return true,
         save_data (mkSystem (mkLibrarian (books L ++ [new_book]) (students L) (logs L))
                             (disk w)))
    end.

(** [LibraryGUI.add_student] *)
Definition add_student (w : System) (sid nm : string) : Py.outcome bool * System :=
  if negb (truthy sid && truthy nm)
  then (Py.Return false, w)
  else
    let L := lib w in
    let new_student := Student_init sid nm None in
    (Py.Return true,
     save_data (mkSystem (mkLibrarian (books L) (students L ++ [new_student]) (logs L))
                         (disk w))).

(** ** Sequences of operations *)

Inductive op :=
| IssueBook (bid sid : string) (now : Z)
| ReturnBook (bid sid return_date : string) (now : Z)
| AddBook (bid ttl auth copies : string)
| AddStudent (sid nm : string)
| SearchBook (query : string)
| SearchStudent (query : string).

(** The tests by which the handlers of [LibraryGUI] recognise a successful
    issue and a successful return. *)
Definition issued (r : Py.outcome string) : bool :=
  match r with
  | Py.Return s => Py.contains "Due date" s
  | Py.Raise _ => false
  end.

Definition returned (r : Py.outcome string) : bool :=
  match r with
  | Py.Return s => Py.contains "Penalty" s
  | Py.Raise _ => false
  end.

Definition step (w : System) (o : op) : System :=
  match o with
  | IssueBook bid sid now => snd (issue_book w bid sid now)
  | ReturnBook bid sid rd now => snd (return_book w bid sid rd now)
  | AddBook bid ttl auth copies => snd (add_book w bid ttl auth copies)
  | AddStudent sid nm => snd (add_student w sid nm)
  | SearchBook _ => w
  | SearchStudent _ => w
  end.

(** Whether [o] is an issue or a return that succeeds in [w]. *)
Definition transacts (w : System) (o : op) : bool :=
  match o with
  | IssueBook bid sid now => issued (fst (issue_book w bid sid now))
  | ReturnBook bid sid rd now => returned (fst (return_book w bid sid rd now))
  | _ => false
  end.

Fixpoint run (w : System) (ops : list op) : System :=
  match ops with
  | [] => w
  | o :: ops' => run (step w o) ops'
  end.

(** The number of successful issues and returns along [ops]. *)
Fixpoint transactions (w : System) (ops : list op) : nat :=
  match ops with
  | [] => O
  | o :: ops' => ((if transacts w o then 1 else 0) + transactions (step w o) ops')%nat
  end.

(** A program started on no files. *)
Definition empty_disk : Disk := mkDisk None None None.
Definition fresh : System := mkSystem (mkLibrarian [] [] []) empty_disk.

(** ** Vocabulary of the specification *)

(** The results that the specification names, and the text by which the
    program reports each of them. *)
Inductive IssueError :=
| BookNotFound | StudentNotFound | NoCopiesAvailable | BorrowLimitReached.

Inductive ReturnError := NotFound | LoanNotFound.

Definition issue_message (e : IssueError) : string :=
  match e with
  | BookNotFound => "Book not found."
  | StudentNotFound => "Student not found."
  | NoCopiesAvailable => "No copies available."
  | BorrowLimitReached => "Student has reached the borrowing limit."
  end.

Definition return_message (e : ReturnError) : string :=
  match e with
  | NotFound => "Book or Student not found."
  | LoanNotFound => "This student did not borrow this book."
  end.

(** The small letter of a capital, for the letters below U+0100: a to z
    for A to Z, and U+00E0 to U+00FE for U+00C0 to U+00DE, 32 places on
    in both alphabets; the multiplication sign U+00D7 and the division
    sign U+00F7, which stand among these letters, are not letters. *)
Inductive small_of : ascii → ascii → Prop :=
| small_of_basic (n : nat) :
    (65 ≤ n ≤ 90)%nat → small_of (ascii_of_nat n) (ascii_of_nat (n + 32))
| small_of_latin (n : nat) :
    (192 ≤ n ≤ 222)%nat → n ≠ 215%nat →
    small_of (ascii_of_nat n) (ascii_of_nat (n + 32)).

(** Two characters are the same letter when they are equal or one is the
    capital of the other. *)
Definition same_letter (a b : ascii) : Prop :=
  a = b ∨ small_of a b ∨ small_of b a.

(** Two texts that read the same when letter case is ignored. *)
Inductive same_text : string → string → Prop :=
| same_text_nil : same_text EmptyString EmptyString
| same_text_cons (a b : ascii) (s t : string) :
    same_letter a b → same_text s t → same_text (String a s) (String b t).

(** [q] occurs in [s] when letter case is ignored: some stretch of [s]
    reads as [q], up to the case of its letters. *)
Definition ci_substring (q s : string) : Prop :=
  ∃ pre mid post, s = pre +:+ mid +:+ post ∧ same_text mid q.

(** The day after [d] on the calendar. *)
Definition next_day (d : Date.date) : Date.date :=
  if Date.day d <? Date.days_in_month (Date.year d) (Date.month d)
  then Date.mkdate (Date.year d) (Date.month d) (Date.day d + 1)
  else if Date.month d <? 12
  then Date.mkdate (Date.year d) (Date.month d + 1) 1
  else Date.mkdate (Date.year d + 1) 1 1.

(** The files hold exactly what the object in memory holds. *)
Definition persisted (w : System) : Prop :=
  disk w =
  mkDisk (Some (map (λ b, write_book_row (Book_to_csv b)) (books (lib w))))
         (Some (map Student_to_csv (students (lib w))))
         (Some (logs (lib w))).

(** The files follow the memory: the books file and the students file,
    which are written together, hold the rows of the books and of the
    students, or are both missing while there is neither book nor
    student; the log file holds the log, or is missing while the log is
    empty. *)
Definition saved (w : System) : Prop :=
  (books_csv (disk w)
   = Some (map (λ b, write_book_row (Book_to_csv b)) (books (lib w)))
   ∧ students_csv (disk w) = Some (map Student_to_csv (students (lib w)))
   ∨ books_csv (disk w) = None ∧ students_csv (disk w) = None
     ∧ books (lib w) = [] ∧ students (lib w) = [])
  ∧ (logs_csv (disk w) = Some (logs (lib w))
     ∨ logs_csv (disk w) = None ∧ logs (lib w) = []).

(** What saving a student and loading the row again makes of the student. *)
Definition reload_student (s : Student) : Student :=
  Student_init (student_id s) (name s)
    (Some (Py.split "," (Py.join "," (borrowed_books s)))).

(** No student holds more than three loans. *)
Definition within_limit (w : System) : Prop :=
  Forall (λ s, (List.length (borrowed_books s) ≤ 3)%nat) (students (lib w)).

(** No book has a negative number of copies. *)
Definition copies_non_negative (w : System) : Prop :=
  Forall (λ b, 0 ≤ available_copies b) (books (lib w)).

(** The entry that a successful transaction writes in the log. *)
Definition log_entry_of (o : op) : list Log.entry :=
  match o with
  | IssueBook bid sid now => [Log.mk "issue" bid sid (Date.isoformat now)]
  | ReturnBook bid sid _ now => [Log.mk "return" bid sid (Date.isoformat now)]
  | _ => []
  end.

(** The entries written along [ops], one for each successful issue or
    return, in order. *)
Fixpoint written (w : System) (ops : list op) : list Log.entry :=
  match ops with
  | [] => []
  | o :: ops' =>
      (if transacts w o then log_entry_of o else []) ++ written (step w o) ops'
  end.

(** The entry that [issue_book] writes for [bid] starts with the identifier
    followed by the opening of the due date. *)
Definition loan_for (bid entry : string) : bool :=
  Py.startswith (bid +:+ " (Due: ") entry.

(** The state that a successful issue leaves. *)
Definition issued_state (w : System) (bid sid : string) (now : Z)
  (i : nat) (b : Book) (j : nat) (s : Student) (due : Z) : System :=
  let books' :=
    <[i := mkBook (book_id b) (title b) (author b) (available_copies b - 1)]>
      (books (lib w)) in
  let students' :=
    <[j := mkStudent (student_id s) (name s) (borrowed_books s ++ [loan_text bid due])]>
      (students (lib w)) in
  let logs' := logs (lib w) ++ [Log.mk "issue" bid sid (Date.isoformat now)] in
  mkSystem (mkLibrarian books' students' logs')
           (mkDisk (Some (map (λ b, write_book_row (Book_to_csv b)) books'))
                   (Some (map Student_to_csv students'))
                   (Some logs')).

(** The state that a successful return leaves, [first] being the entry
    taken out of the student's list. *)
Definition returned_state (w : System) (bid sid : string) (now : Z)
  (i : nat) (b : Book) (j : nat) (s : Student) (first : string)
  : System :=
  let books' :=
    <[i := mkBook (book_id b) (title b) (author b) (available_copies b + 1)]>
      (books (lib w)) in
  let students' :=
    <[j := mkStudent (student_id s) (name s)
             (list_remove_first first (borrowed_books s))]>
      (students (lib w)) in
  let logs' := logs (lib w) ++ [Log.mk "return" bid sid (Date.isoformat now)] in
  mkSystem (mkLibrarian books' students' logs')
           (mkDisk (Some (map (λ b, write_book_row (Book_to_csv b)) books'))
                   (Some (map Student_to_csv students'))
                   (Some logs')).

(** ** Sample states *)

Definition sample_books : list Book :=
  [mkBook "B1" "Dune" "Frank Herbert" 1;
   mkBook "B12" "Emma" "Jane Austen" 2;
   mkBook "B3" "Ulysses" "James Joyce" 0].

Definition sample_students : list Student :=
  [mkStudent "S1" "Alice" [];
   mkStudent "S2" "Bob"
     ["B12 (Due: 2024-01-15)"; "B3 (Due: 2024-01-16)"; "B12 (Due: 2024-01-17)"];
   mkStudent "S3" "Carol" ["B12 (Due: 2024-01-15)"];
   mkStudent "S4" "Dan" ["B12 (Due: 2024-01-15)"; "B1 (Due: 2024-01-16)"]].

Definition sample : System :=
  save_data (mkSystem (mkLibrarian sample_books sample_students []) empty_disk).

(** A library in which one book and one student have just been registered. *)
Definition registered : System :=
  run fresh [AddBook "B1" "Dune" "Frank Herbert" "2"; AddStudent "S1" "Alice"].

(** A catalogue of one book whose title has a capital E with an acute
    accent (U+00C9), and one whose title is the division sign (U+00F7). *)
Definition accented : Librarian :=
  mkLibrarian [mkBook "B7" (String "201" "mile") "Rousseau" 3;
               mkBook "B8" (String "247" "") "Anonymous" 1] [] [].

(** The text of [k] times the digit [c]. *)
Fixpoint digits (c : ascii) (k : nat) : string :=
  match k with
  | O => EmptyString
  | S k' => String c (digits c k')
  end.

(** 2024-01-01 as an ordinal. *)
Definition day_2024_01_01 : Z := 738886.

(** ** The window: [LibraryGUI] *)

(** The widgets whose text the handlers read or write, and the librarian
    behind them.  The entries in which the user types the fields of a
    handler are arguments of that handler; the two search entries are kept
    here because every refresh of a list reads them. *)
Record LibraryGUI := mkGUI {
  librarian : System;
  book_search_entry : string;
  student_search_entry : string;
  books_display : string;
  students_display : string;
  due_date_display : string;
  penalty_display : string
}.

Definition newline : string := String (ascii_of_nat 10) EmptyString.

(** One line of the list of books, and one of the list of students. *)
Definition book_line (book : BookDict.t) : string :=
  "ID: " +:+ BookDict.book_id book +:+ ", Title: " +:+ BookDict.title book
  +:+ ", Author: " +:+ BookDict.author book
  +:+ ", Available: " +:+ Py.str (BookDict.available_copies book) +:+ newline.

Definition student_line (student : StudentDict.t) : string :=
  "ID: " +:+ StudentDict.student_id student
  +:+ ", Name: " +:+ StudentDict.name student
  +:+ ", Borrowed: " +:+ StudentDict.borrowed_books student +:+ newline.

Fixpoint concat_lines (lines : list string) : string :=
  match lines with
  | [] => EmptyString
  | l :: lines' => l +:+ concat_lines lines'
  end.

(** [LibraryGUI.search_books]: the list is emptied and written again. *)
Definition search_books (g : LibraryGUI) : LibraryGUI :=
  let results := search_book (lib (librarian g)) (book_search_entry g) in
  let text :=
    match results with
    | [] => "No books found."
    | _ => concat_lines (map book_line results)
    end in
  mkGUI (librarian g) (book_search_entry g) (student_search_entry g)
        text (students_display g) (due_date_display g) (penalty_display g).

(** [LibraryGUI.search_students] *)
Definition search_students (g : LibraryGUI) : LibraryGUI :=
  let results := search_student (lib (librarian g)) (student_search_entry g) in
  let text :=
    match results with
    | [] => "No students found."
    | _ => concat_lines (map student_line results)
    end in
  mkGUI (librarian g) (book_search_entry g) (student_search_entry g)
        (books_display g) text (due_date_display g) (penalty_display g).

Definition set_librarian (g : LibraryGUI) (w : System) : LibraryGUI :=
  mkGUI w (book_search_entry g) (student_search_entry g)
        (books_display g) (students_display g)
        (due_date_display g) (penalty_display g).

Definition set_due_date_display (g : LibraryGUI) (text : string) : LibraryGUI :=
  mkGUI (librarian g) (book_search_entry g) (student_search_entry g)
        (books_display g) (students_display g) text (penalty_display g).

Definition set_penalty_display (g : LibraryGUI) (text : string) : LibraryGUI :=
  mkGUI (librarian g) (book_search_entry g) (student_search_entry g)
        (books_display g) (students_display g) (due_date_display g) text.

(** [l[-1]] *)
Definition last_item (l : list string) : Py.outcome string :=
  match last l with
  | Some x => Py.Return x
  | None => Py.Raise Py.IndexError
  end.

(** The handlers below return the text of the message box they show. *)

(** [LibraryGUI.add_book], with the message box and the refresh of the
    list around the registration modelled by [add_book]. *)
Definition on_add_book (g : LibraryGUI) (bid ttl auth copies : string)
  : Py.outcome string * LibraryGUI :=
  match add_book (librarian g) bid ttl auth copies with
  | (Py.Raise e, w') => (Py.Raise e, set_librarian g w')
  | (Py.Return false, _) => (Py.Return "Please fill in all fields correctly.", g)
  | (Py.Return true, w') =>
      (Py.Return "Book added successfully.", search_books (set_librarian g w'))
  end.

(** [LibraryGUI.add_student] *)
Definition on_add_student (g : LibraryGUI) (sid nm : string)
  : Py.outcome string * LibraryGUI :=
  match add_student (librarian g) sid nm with
  | (Py.Raise e, w') => (Py.Raise e, set_librarian g w')
  | (Py.Return false, _) => (Py.Return "Please fill in all fields correctly.", g)
  | (Py.Return true, w') =>
      (Py.Return "Student added successfully.", search_students (set_librarian g w'))
  end.

(** [LibraryGUI.issue_book] *)
Definition on_issue_book (g : LibraryGUI) (bid sid : string) (now : Z)
  : Py.outcome string * LibraryGUI :=
  match issue_book (librarian g) bid sid now with
  | (Py.Raise e, w') => (Py.Raise e, set_librarian g w')
  | (Py.Return result, w') =>
      let g1 := set_librarian g w' in
      if Py.contains "Due date" result
      then
        match last_item (Py.split "Due date: " result) with
        | Py.Raise e => (Py.Raise e, g1)
        | Py.Return due_date =>
            (Py.Return result,
             search_books (set_due_date_display g1 ("Due Date: " +:+ due_date)))
        end
      else (Py.Return result, search_books (set_due_date_display g1 ""))
  end.

(** [LibraryGUI.return_book]: the return date is checked before the
    librarian is called. *)
Definition on_return_book (g : LibraryGUI) (bid sid return_date : string) (now : Z)
  : Py.outcome string * LibraryGUI :=
  match Date.strptime return_date with
  | Py.Raise Py.ValueError => (Py.Return "Invalid date format. Use YYYY-MM-DD.", g)
  | Py.Raise e => (Py.Raise e, g)
  | Py.Return _ =>
      match return_book (librarian g) bid sid return_date now with
      | (Py.Raise e, w') => (Py.Raise e, set_librarian g w')
      | (Py.Return result, w') =>
          let g1 := set_librarian g w' in
          if Py.contains "Penalty" result
          then
            match last_item (Py.split "Penalty: $" result) with
            | Py.Raise e => (Py.Raise e, g1)
            | Py.Return penalty =>
                (Py.Return result,
                 search_students
                   (search_books (set_penalty_display g1 ("Penalty: $" +:+ penalty))))
            end
          else
            (Py.Return result,
             search_students (search_books (set_penalty_display g1 "Penalty: $0")))
      end
  end.

(** [LibraryGUI.__init__]: the librarian is loaded from the files and the
    labels start as the window builds them. *)
Definition LibraryGUI_init (d : Disk) : Py.outcome LibraryGUI :=
  let! L := Librarian_init d in
  Py.Return (mkGUI (mkSystem L d) "" "" "" "" "" "Penalty: $0").

(** ** Vocabulary of the further properties *)

(** A text without a colon. *)
Definition colon_free (s : string) : bool := negb (Py.contains ":" s).

(** A loan as [issue_book] writes it, for an identifier without a colon
    and a due date of the calendar. *)
Definition well_formed_loan (entry : string) : Prop :=
  ∃ (bid : string) (due : Z),
    colon_free bid = true ∧ 1 ≤ due ≤ Date.MAXORDINAL ∧ entry = loan_text bid due.

Definition loans_well_formed (w : System) : Prop :=
  Forall (λ s, Forall well_formed_loan (borrowed_books s)) (students (lib w)).

Definition ids_colon_free (w : System) : Prop :=
  Forall (λ b, colon_free (book_id b) = true) (books (lib w)).

(** An operation that registers no book whose identifier has a colon. *)
Definition registers_colon_free (o : op) : Prop :=
  match o with
  | AddBook bid _ _ _ => colon_free bid = true
  | _ => True
  end.

(** The copies on the shelves and the loans held, over the whole library. *)
Definition on_shelf (w : System) : Z :=
  foldr (λ b acc, available_copies b + acc) 0 (books (lib w)).

Definition on_loan (w : System) : Z :=
  foldr (λ s acc, Z.of_nat (List.length (borrowed_books s)) + acc) 0 (students (lib w)).

(** The copies that an operation registers. *)
Definition copies_registered (w : System) (o : op) : Z :=
  match o with
  | AddBook bid ttl auth copies =>
      match add_book w bid ttl auth copies with
      | (Py.Return true, _) => Py.digits_value 0 copies
      | _ => 0
      end
  | _ => 0
  end.

(** A text without a carriage return. *)
Fixpoint plain (s : string) : bool :=
  match s with
  | EmptyString => true
  | String c s' => negb (bool_decide (c = "013"%char)) && plain s'
  end.

(** A librarian none of whose texts has a carriage return. *)
Definition plain_book (b : Book) : bool :=
  plain (book_id b) && plain (title b) && plain (author b).

Definition plain_student (s : Student) : bool :=
  plain (student_id s) && plain (name s) && forallb plain (borrowed_books s).

Definition plain_entry (e : Log.entry) : bool :=
  plain (Log.transaction_type e) && plain (Log.book_id e)
  && plain (Log.student_id e) && plain (Log.date e).

Definition plain_librarian (L : Librarian) : Prop :=
  Forall (λ b, plain_book b = true) (books L)
  ∧ Forall (λ s, plain_student s = true) (students L)
  ∧ Forall (λ e, plain_entry e = true) (logs L).

(** An operation that registers no text with a carriage return. *)
Definition registers_plain (o : op) : Prop :=
  match o with
  | AddBook bid ttl auth _ => plain bid && plain ttl && plain auth = true
  | AddStudent sid nm => plain sid && plain nm = true
  | _ => True
  end.

(** Every number of copies can be written: [str] puts it in no more
    digits than its limit. *)
Definition writable (L : Librarian) : Prop :=
  Forall (λ b, Py.fits (available_copies b) = true) (books L).

(** What a restart reads for a book, a student and the librarian: the
    texts as a file opened in text mode gives them, the number of copies
    as written, the loans split out of their field. *)
Definition reread_book (b : Book) : Book :=
  mkBook (Py.universal_newlines (book_id b)) (Py.universal_newlines (title b))
         (Py.universal_newlines (author b)) (available_copies b).

Definition reread_student (s : Student) : Student :=
  Student_init (Py.universal_newlines (student_id s)) (Py.universal_newlines (name s))
    (Some (Py.split "," (Py.universal_newlines (Py.join "," (borrowed_books s))))).

Definition reread (L : Librarian) : Librarian :=
  mkLibrarian (map reread_book (books L)) (map reread_student (students L))
              (map (map_fields Py.universal_newlines) (logs L)).

(** The penalty that the specification of [calculate_penalty] gives for a
    return [days] days after the due date. *)
Definition penalty_for (days : Z) : Z :=
  if decide (days - 2 ≤ 0) then 0 else Z.min (days - 2) 50.

(** * Properties *)

(** ** The built-ins on sample inputs *)

Example lower_mixed : Py.lower "The Hobbit, 2nd Ed." = "the hobbit, 2nd ed.".
Proof. reflexivity. Qed.

Example contains_empty : Py.contains "" "" = true.
Proof. reflexivity. Qed.

Example split_commas : Py.split "," "a,,b," = ["a"; ""; "b"; ""].
Proof. reflexivity. Qed.

Example split_empty : Py.split "," "" = [""].
Proof. reflexivity. Qed.

Example split_due :
  Py.split "Due: " "B1 (Due: 2024-01-15)" = ["B1 ("; "2024-01-15)"].
Proof. reflexivity. Qed.

Example str_neg : Py.str (-120) = "-120".
Proof. vm_compute. reflexivity. Qed.

Example int_of_str_307 : Py.int (Py.str 307) = Py.Return 307.
Proof. vm_compute. reflexivity. Qed.

Example lower_accented :
  Py.lower (String "201" (String "215" "Z")) = String "233" (String "215" "z").
Proof. reflexivity. Qed.

Example isdigit_superscript :
  Py.isdigit (String "178" "") = true ∧ Py.isdigit "12a" = false ∧ Py.isdigit "" = false.
Proof. by split_and!. Qed.

Example int_superscript : Py.int (String "178" "") = Py.Raise Py.ValueError.
Proof. reflexivity. Qed.

Example int_blanks_and_sign :
  Py.int " +007 " = Py.Return 7 ∧ Py.int "- 7" = Py.Raise Py.ValueError
  ∧ Py.int (String "160" (String "055" (String "133" ""))) = Py.Return 7.
Proof. by vm_compute. Qed.

Example int_underscores :
  Py.int "1_000" = Py.Return 1000 ∧ Py.int "1__0" = Py.Raise Py.ValueError
  ∧ Py.int "_1" = Py.Raise Py.ValueError ∧ Py.int "1_" = Py.Raise Py.ValueError.
Proof. by vm_compute. Qed.

Example universal_newlines_mixed :
  Py.universal_newlines
    (String "a" (String "013" (String "010" (String "b" (String "013" "c")))))
  = String "a" (String "010" (String "b" (String "010" "c"))).
Proof. reflexivity. Qed.

Example ordinal_2024_01_01 : Date.toordinal (Date.mkdate 2024 1 1) = 738886.
Proof. reflexivity. Qed.

Example fromordinal_leap_day : Date.ord2ymd 738945 = Date.mkdate 2024 2 29.
Proof. reflexivity. Qed.

Example fromordinal_year_end : Date.ord2ymd 739251 = Date.mkdate 2024 12 31.
Proof. reflexivity. Qed.

Example isoformat_2024_03_05 : Date.isoformat 738950 = "2024-03-05".
Proof. reflexivity. Qed.

Example strptime_padded : Date.strptime "2024-06-01" = Py.Return (Date.mkdate 2024 6 1).
Proof. reflexivity. Qed.

Example strptime_unpadded : Date.strptime "2024-6-1" = Py.Return (Date.mkdate 2024 6 1).
Proof. reflexivity. Qed.

Example strptime_feb_30 : Date.strptime "2023-02-30" = Py.Raise Py.ValueError.
Proof. reflexivity. Qed.

Example strptime_trailing : Date.strptime "2024-01-321" = Py.Raise Py.ValueError.
Proof. reflexivity. Qed.


(** ** Text *)

Section Text.

Lemma append_cons (c : ascii) (s t : string) : String c s +:+ t = String c (s +:+ t).
Proof. reflexivity. Qed.

Lemma append_nil_r (s : string) : s +:+ "" = s.
Proof. induction s as [|c s IH]; [done | by rewrite append_cons, IH]. Qed.

Lemma append_assoc (a b c : string) : (a +:+ b) +:+ c = a +:+ (b +:+ c).
Proof. induction a as [|x a IH]; [done | by rewrite !append_cons, IH]. Qed.

Lemma lower_append (a b : string) : Py.lower (a +:+ b) = Py.lower a +:+ Py.lower b.
Proof.
  induction a as [|x a IH]; [done|].
  rewrite append_cons. simpl. by rewrite append_cons, IH.
Qed.

(** A split of the lowered text comes from a split of the text. *)
Lemma lower_split (s a b : string) :
  Py.lower s = a +:+ b →
  ∃ s1 s2, s = s1 +:+ s2 ∧ Py.lower s1 = a ∧ Py.lower s2 = b.
Proof.
  revert s. induction a as [|x a IH]; intros s H.
  - by exists EmptyString, s.
  - destruct s as [|c s]; [discriminate|].
    rewrite append_cons in H. simpl in H. injection H as Hc Hs.
    destruct (IH s Hs) as (s1 & s2 & -> & H1 & H2).
    exists (String c s1), s2. simpl. by rewrite Hc, H1.
Qed.

Lemma startswith_spec (p s : string) :
  Py.startswith p s = true ↔ ∃ t, s = p +:+ t.
Proof.
  revert s. induction p as [|a p IH]; intros s; simpl.
  - split; [by exists s | done].
  - destruct s as [|b s].
    + split; [done | by intros [t Ht]].
    + rewrite andb_true_iff, bool_decide_eq_true, IH. split.
      * intros [-> [t ->]]. by exists t.
      * intros [t Ht]. rewrite append_cons in Ht. injection Ht as -> ->. eauto.
Qed.

(** [needle in hay] holds exactly when [hay] is some text, then [needle],
    then some text. *)
Lemma contains_spec (needle hay : string) :
  Py.contains needle hay = true ↔ ∃ pre post, hay = pre +:+ needle +:+ post.
Proof.
  induction hay as [|c hay IH].
  - simpl. rewrite orb_false_r, startswith_spec. split.
    + intros [t Ht]. by exists EmptyString, t.
    + intros (pre & post & H). destruct pre; [eauto | discriminate].
  - cbn [Py.contains]. rewrite orb_true_iff, startswith_spec, IH. split.
    + intros [[t Ht] | (pre & post & ->)].
      * by exists EmptyString, t.
      * by exists (String c pre), post.
    + intros (pre & post & H). destruct pre as [|x pre].
      * left. eauto.
      * right. rewrite append_cons in H. injection H as _ ->. eauto.
Qed.

Lemma contains_empty_needle (hay : string) : Py.contains "" hay = true.
Proof. by destruct hay. Qed.

End Text.

(** ** Shape of the two transactions *)

Section Transactions.

Variable w : System.
Variables bid sid : string.
Variable now : Z.

Lemma find_book_None :
  find_book (lib w) bid = None ↔ Forall (λ b, book_id b ≠ bid) (books (lib w)).
Proof. unfold find_book. apply list_find_None. Qed.

Lemma find_student_None :
  find_student (lib w) sid = None ↔ Forall (λ s, student_id s ≠ sid) (students (lib w)).
Proof. unfold find_student. apply list_find_None. Qed.

Lemma find_book_Some i b :
  find_book (lib w) bid = Some (i, b) →
  books (lib w) !! i = Some b ∧ book_id b = bid.
Proof. unfold find_book. rewrite list_find_Some. tauto. Qed.

Lemma find_student_Some j s :
  find_student (lib w) sid = Some (j, s) →
  students (lib w) !! j = Some s ∧ student_id s = sid.
Proof. unfold find_student. rewrite list_find_Some. tauto. Qed.

Lemma can_borrow_spec s :
  can_borrow s = true ↔ (List.length (borrowed_books s) < 3)%nat.
Proof. unfold can_borrow. rewrite Z.ltb_lt. lia. Qed.

Lemma issued_message due :
  issued (Py.Return ("Book issued successfully. Due date: " +:+ Date.isoformat due)) = true.
Proof. reflexivity. Qed.

Lemma returned_message p :
  returned (Py.Return ("Book returned successfully. Penalty: $" +:+ Py.str p)) = true.
Proof. reflexivity. Qed.

(** When the four checks pass and the due date exists, the issue goes
    through. *)
Lemma issue_book_success i b j s :
  find_book (lib w) bid = Some (i, b) →
  find_student (lib w) sid = Some (j, s) →
  0 < available_copies b →
  (List.length (borrowed_books s) < 3)%nat →
  1 ≤ now + 14 ≤ Date.MAXORDINAL →
  issue_book w bid sid now =
  (Py.Return ("Book issued successfully. Due date: " +:+ Date.isoformat (now + 14)),
   issued_state w bid sid now i b j s (now + 14)).
Proof.
  intros Hb Hs Hc Hl Hn. unfold issue_book. cbv zeta. rewrite Hb, Hs.
  destruct (Z.leb_spec (available_copies b) 0) as [?|_]; [lia|].
  apply can_borrow_spec in Hl. rewrite Hl. cbn [negb].
  unfold Date.add_days.
  destruct (Z.leb_spec 1 (now + 14)) as [_|?]; [|lia].
  destruct (Z.leb_spec (now + 14) Date.MAXORDINAL) as [_|?]; [|lia].
  reflexivity.
Qed.

(** Every call of [issue_book] either leaves the state as it was and does
    not report an issue, or is a successful issue. *)
Lemma issue_book_cases :
  (snd (issue_book w bid sid now) = w ∧ issued (fst (issue_book w bid sid now)) = false)
  ∨ ∃ i b j s,
      find_book (lib w) bid = Some (i, b) ∧
      find_student (lib w) sid = Some (j, s) ∧
      0 < available_copies b ∧
      (List.length (borrowed_books s) < 3)%nat ∧
      1 ≤ now + 14 ≤ Date.MAXORDINAL ∧
      issue_book w bid sid now =
      (Py.Return ("Book issued successfully. Due date: " +:+ Date.isoformat (now + 14)),
       issued_state w bid sid now i b j s (now + 14)).
Proof.
  destruct (find_book (lib w) bid) as [[i b]|] eqn:Hb;
    [|left; unfold issue_book; cbv zeta; rewrite Hb; done].
  destruct (find_student (lib w) sid) as [[j s]|] eqn:Hs;
    [|left; unfold issue_book; cbv zeta; rewrite Hb, Hs; done].
  destruct (Z.leb_spec (available_copies b) 0) as [Hc|Hc].
  { left. unfold issue_book; cbv zeta; rewrite Hb, Hs.
    apply Z.leb_le in Hc. by rewrite Hc. }
  destruct (can_borrow s) eqn:Hl.
  2:{ left. unfold issue_book; cbv zeta; rewrite Hb, Hs.
      apply Z.leb_gt in Hc. by rewrite Hc, Hl. }
  apply can_borrow_spec in Hl.
  destruct (decide (1 ≤ now + 14 ≤ Date.MAXORDINAL)) as [Hn|Hn].
  - right. exists i, b, j, s. eauto 10 using issue_book_success.
  - left. unfold issue_book; cbv zeta; rewrite Hb, Hs.
    apply Z.leb_gt in Hc. apply can_borrow_spec in Hl. rewrite Hc, Hl. cbn [negb].
    unfold Date.add_days.
    destruct (Z.leb_spec 1 (now + 14)); destruct (Z.leb_spec (now + 14) Date.MAXORDINAL);
      cbn [andb]; try done. lia.
Qed.

End Transactions.

Section Returns.

Variable w : System.
Variables bid sid return_date : string.
Variable now : Z.

(** A return goes through when both records are found, some entry of the
    student contains [bid], and the penalty can be computed from the first
    such entry. *)
Lemma return_book_success i b j s first rest piece penalty :
  find_book (lib w) bid = Some (i, b) →
  find_student (lib w) sid = Some (j, s) →
  List.filter (λ e, Py.contains bid e) (borrowed_books s) = first :: rest →
  Py.split "Due: " first !! 1%nat = Some piece →
  calculate_penalty (Py.drop_last piece) return_date = Py.Return penalty →
  return_book w bid sid return_date now =
  (Py.Return ("Book returned successfully. Penalty: $" +:+ Py.str penalty),
   returned_state w bid sid now i b j s first).
Proof.
  intros Hb Hs Hf Hp Hc. unfold return_book. cbv zeta.
  by rewrite Hb, Hs, Hf, Hp, Hc.
Qed.

(** Every call of [return_book] either leaves the state as it was and does
    not report a return, or is a successful return. *)
Lemma return_book_cases :
  (snd (return_book w bid sid return_date now) = w ∧
   returned (fst (return_book w bid sid return_date now)) = false)
  ∨ ∃ i b j s first rest piece penalty,
      find_book (lib w) bid = Some (i, b) ∧
      find_student (lib w) sid = Some (j, s) ∧
      List.filter (λ e, Py.contains bid e) (borrowed_books s) = first :: rest ∧
      Py.split "Due: " first !! 1%nat = Some piece ∧
      calculate_penalty (Py.drop_last piece) return_date = Py.Return penalty ∧
      return_book w bid sid return_date now =
      (Py.Return ("Book returned successfully. Penalty: $" +:+ Py.str penalty),
       returned_state w bid sid now i b j s first).
Proof.
  destruct (find_book (lib w) bid) as [[i b]|] eqn:Hb;
    [|left; unfold return_book; cbv zeta; rewrite Hb; done].
  destruct (find_student (lib w) sid) as [[j s]|] eqn:Hs;
    [|left; unfold return_book; cbv zeta; rewrite Hb, Hs; done].
  destruct (List.filter (λ e, Py.contains bid e) (borrowed_books s))
    as [|first rest] eqn:Hf;
    [left; unfold return_book; cbv zeta; rewrite Hb, Hs, Hf; done|].
  destruct (Py.split "Due: " first !! 1%nat) as [piece|] eqn:Hp;
    [|left; unfold return_book; cbv zeta; rewrite Hb, Hs, Hf, Hp; done].
  destruct (calculate_penalty (Py.drop_last piece) return_date) as [penalty|e] eqn:Hc;
    [|left; unfold return_book; cbv zeta; rewrite Hb, Hs, Hf, Hp, Hc; done].
  right. exists i, b, j, s, first, rest, piece, penalty.
  eauto 10 using return_book_success.
Qed.

End Returns.

(** ** Removing from a list of loans *)

Lemma list_remove_first_length (x : string) (l : list string) :
  (List.length (list_remove_first x l) ≤ List.length l)%nat.
Proof.
  induction l as [|y l IH]; simpl; [lia|].
  case_bool_decide; simpl; lia.
Qed.

(** The head of the entries selected by a test is the first entry of the
    list that passes it, and [list_remove_first] takes out exactly that
    position. *)
Lemma list_remove_first_filter_head (f : string → bool) (l : list string) first rest :
  List.filter f l = first :: rest →
  ∃ pre post,
    l = pre ++ first :: post ∧
    Forall (λ e, f e = false) pre ∧
    f first = true ∧
    list_remove_first first l = pre ++ post.
Proof.
  induction l as [|y l IH]; simpl; [done|].
  destruct (f y) eqn:Hy.
  - intros [= -> Hrest]. exists [], l. rewrite bool_decide_true by done. auto.
  - intros H. destruct (IH H) as (pre & post & -> & Hpre & Hf & Hrm).
    exists (y :: pre), post. split_and!; [done | by constructor | done |].
    rewrite bool_decide_false by (intros ->; congruence).
    simpl. by rewrite Hrm.
Qed.

(** ** Issue: the checks and their order *)

(** With both records found and a copy left, a student with three loans or
    more is refused and nothing changes. *)
Lemma issue_book_at_limit (w : System) (bid sid : string) (now : Z)
    (i : nat) (b : Book) (j : nat) (s : Student) :
  find_book (lib w) bid = Some (i, b) →
  find_student (lib w) sid = Some (j, s) →
  0 < available_copies b →
  (3 ≤ List.length (borrowed_books s))%nat →
  issue_book w bid sid now = (Py.Return (issue_message BorrowLimitReached), w).
Proof.
  intros Hb Hs Hc Hl. unfold issue_book. cbv zeta. rewrite Hb, Hs.
  destruct (Z.leb_spec (available_copies b) 0); [lia|].
  destruct (can_borrow s) eqn:Hcb; [|done].
  apply can_borrow_spec in Hcb. lia.
Qed.


(** C1. [issue_book] makes its four checks in a fixed order and the first
    one that fails decides the result: with no book of that identifier the
    result is BookNotFound; with a book but no student of that identifier
    it is StudentNotFound; with both, when the copies of the book are not
    above zero it is NoCopiesAvailable; and with copies left, when the
    student holds three loans or more it is BorrowLimitReached.  In each of
    these cases the state returned is the state given: nothing in memory or
    on disk has changed. *)
Theorem C1_issue_checks_in_order (w : System) (bid sid : string) (now : Z) :
  (Forall (λ b, book_id b ≠ bid) (books (lib w)) →
   issue_book w bid sid now = (Py.Return (issue_message BookNotFound), w))
  ∧ (∀ i b,
       find_book (lib w) bid = Some (i, b) →
       Forall (λ s, student_id s ≠ sid) (students (lib w)) →
       issue_book w bid sid now = (Py.Return (issue_message StudentNotFound), w))
  ∧ (∀ i b j s,
       find_book (lib w) bid = Some (i, b) →
       find_student (lib w) sid = Some (j, s) →
       ¬ (0 < available_copies b) →
       issue_book w bid sid now = (Py.Return (issue_message NoCopiesAvailable), w))
  ∧ (∀ i b j s,
       find_book (lib w) bid = Some (i, b) →
       find_student (lib w) sid = Some (j, s) →
       0 < available_copies b →
       (3 ≤ List.length (borrowed_books s))%nat →
       issue_book w bid sid now = (Py.Return (issue_message BorrowLimitReached), w)).
Proof.
  split_and!.
  - intros Hb. apply find_book_None in Hb.
    unfold issue_book. cbv zeta. by rewrite Hb.
  - intros i b Hb Hs. apply find_student_None in Hs.
    unfold issue_book. cbv zeta. by rewrite Hb, Hs.
  - intros i b j s Hb Hs Hc. unfold issue_book. cbv zeta. rewrite Hb, Hs.
    destruct (Z.leb_spec (available_copies b) 0); [done | lia].
  - intros i b j s. apply issue_book_at_limit.
Qed.

Lemma C1_issue_checks_in_order_witness :
  issue_book sample "B9" "S9" day_2024_01_01
    = (Py.Return (issue_message BookNotFound), sample)
  ∧ issue_book sample "B1" "S9" day_2024_01_01
    = (Py.Return (issue_message StudentNotFound), sample)
  ∧ issue_book sample "B3" "S2" day_2024_01_01
    = (Py.Return (issue_message NoCopiesAvailable), sample)
  ∧ issue_book sample "B1" "S2" day_2024_01_01
    = (Py.Return (issue_message BorrowLimitReached), sample).
Proof.
  split_and!.
  - apply (proj1 (C1_issue_checks_in_order sample "B9" "S9" day_2024_01_01)).
    repeat constructor; discriminate.
  - apply (proj1 (proj2 (C1_issue_checks_in_order sample "B1" "S9" day_2024_01_01))
             0%nat (mkBook "B1" "Dune" "Frank Herbert" 1)).
    + reflexivity.
    + repeat constructor; discriminate.
  - apply (proj1 (proj2 (proj2 (C1_issue_checks_in_order sample "B3" "S2" day_2024_01_01)))
             2%nat (mkBook "B3" "Ulysses" "James Joyce" 0)
             1%nat (mkStudent "S2" "Bob"
                      ["B12 (Due: 2024-01-15)"; "B3 (Due: 2024-01-16)";
                       "B12 (Due: 2024-01-17)"])).
    + reflexivity.
    + reflexivity.
    + simpl. lia.
  - apply (proj2 (proj2 (proj2 (C1_issue_checks_in_order sample "B1" "S2" day_2024_01_01)))
             0%nat (mkBook "B1" "Dune" "Frank Herbert" 1)
             1%nat (mkStudent "S2" "Bob"
                      ["B12 (Due: 2024-01-15)"; "B3 (Due: 2024-01-16)";
                       "B12 (Due: 2024-01-17)"])).
    + reflexivity.
    + reflexivity.
    + simpl. lia.
    + simpl. lia.
Defined.

(** ** The calendar *)

Ltac split_tests :=
  repeat match goal with
    | |- context [(?a =? ?b)] => destruct (Z.eqb_spec a b)
    | |- context [(?a <? ?b)] => destruct (Z.ltb_spec a b)
    | |- context [(?a <=? ?b)] => destruct (Z.leb_spec a b)
    end; cbn [andb orb negb].

Ltac fold_succ :=
  repeat match goal with
    | |- context [Zpos ?p + 1] =>
        let v := eval vm_compute in (Zpos p + 1) in change (Zpos p + 1) with v
    end.

Lemma valid_bounds (d : Date.date) :
  Date.valid d = true →
  1 ≤ Date.year d ≤ 9999 ∧ 1 ≤ Date.month d ≤ 12 ∧
  1 ≤ Date.day d ≤ Date.days_in_month (Date.year d) (Date.month d).
Proof.
  unfold Date.valid. rewrite !andb_true_iff, !Z.leb_le. tauto.
Qed.

Lemma month_cases (m : Z) :
  1 ≤ m ≤ 12 →
  m = 1 ∨ m = 2 ∨ m = 3 ∨ m = 4 ∨ m = 5 ∨ m = 6 ∨
  m = 7 ∨ m = 8 ∨ m = 9 ∨ m = 10 ∨ m = 11 ∨ m = 12.
Proof. lia. Qed.

(** Whether a year is a leap year, in terms of the quotients that
    [days_before_year] uses. *)
Lemma days_before_year_succ (y : Z) :
  Date.days_before_year (y + 1) =
  Date.days_before_year y + 365 + (if Date.is_leap y then 1 else 0).
Proof.
  unfold Date.days_before_year, Date.is_leap. cbv zeta.
  replace (y + 1 - 1) with y by lia.
  split_tests; Z.div_mod_to_equations; lia.
Qed.

(** Ordinals count days: the day after [d] has the next ordinal. *)
Lemma toordinal_next_day (d : Date.date) :
  Date.valid d = true →
  Date.toordinal (next_day d) = Date.toordinal d + 1.
Proof.
  intros H. apply valid_bounds in H. destruct d as [y m dd]. simpl in H.
  destruct H as (Hy & Hm & Hd).
  unfold next_day, Date.toordinal, Date.ymd2ord. simpl.
  destruct (Z.ltb_spec dd (Date.days_in_month y m)) as [|Hlast]; simpl; [lia|].
  destruct (Z.ltb_spec m 12); simpl.
  - unfold Date.days_before_month, Date.days_in_month in *.
    destruct (Date.is_leap y);
    destruct (month_cases m Hm) as [->|[->|[->|[->|[->|[->|[->|[->|[->|[->|[->| ->]]]]]]]]]]];
      fold_succ; cbn in *; lia.
  - assert (m = 12) as -> by lia.
    rewrite days_before_year_succ.
    unfold Date.days_before_month, Date.days_in_month in *.
    destruct (Date.is_leap y); cbn in *; lia.
Qed.

(** The year reached after [q400] cycles of 400 years, [q100] centuries,
    [q4] groups of four years and [q1] years: the days before it, and
    whether it is a leap year. *)
Lemma year_of_parts (q400 q100 q4 q1 : Z) :
  0 ≤ q100 ≤ 3 → 0 ≤ q4 ≤ 24 → 0 ≤ q1 ≤ 3 →
  let y := q400 * 400 + 1 + q100 * 100 + q4 * 4 + q1 in
  Date.days_before_year y = 146097 * q400 + 36524 * q100 + 1461 * q4 + 365 * q1
  ∧ Date.is_leap y = (q1 =? 3) && (negb (q4 =? 24) || (q100 =? 3)).
Proof.
  intros H100 H4 H1 y. subst y. split.
  - unfold Date.days_before_year. cbv zeta. Z.div_mod_to_equations. lia.
  - unfold Date.is_leap.
    split_tests; try reflexivity; exfalso; Z.div_mod_to_equations; lia.
Qed.

(** The last day of a leap year, which [ord2ymd] treats apart. *)
Lemma year_end_of_parts (q400 q100 q4 q1 : Z) :
  (q1 = 4 ∧ 0 ≤ q100 ≤ 3 ∧ 0 ≤ q4 ≤ 23) ∨ (q100 = 4 ∧ q4 = 0 ∧ q1 = 0) →
  let y := q400 * 400 + 1 + q100 * 100 + q4 * 4 + q1 in
  Date.days_before_year (y - 1) + 335 + 31
  = 146097 * q400 + 36524 * q100 + 1461 * q4 + 365 * q1 + 1
  ∧ Date.is_leap (y - 1) = true.
Proof.
  intros H y. subst y. split.
  - unfold Date.days_before_year. cbv zeta. Z.div_mod_to_equations. lia.
  - unfold Date.is_leap.
    split_tests; try reflexivity; exfalso; Z.div_mod_to_equations; lia.
Qed.

Ltac is_pos_num p :=
  match p with
  | xH => idtac
  | xI ?q => is_pos_num q
  | xO ?q => is_pos_num q
  end.

Ltac is_num t :=
  match t with
  | Z0 => idtac
  | Zpos ?p => is_pos_num p
  | Zneg ?p => is_pos_num p
  end.

(** Evaluate the sums, differences and tests whose operands are numerals. *)
Ltac calc_step :=
  match goal with
  | |- context [?a + ?b] =>
      is_num a; is_num b; let v := eval vm_compute in (a + b) in change (a + b) with v
  | |- context [?a - ?b] =>
      is_num a; is_num b; let v := eval vm_compute in (a - b) in change (a - b) with v
  | |- context [?a <? ?b] =>
      is_num a; is_num b; let v := eval vm_compute in (a <? b) in change (a <? b) with v
  | |- context [?a <=? ?b] =>
      is_num a; is_num b; let v := eval vm_compute in (a <=? b) in change (a <=? b) with v
  | |- context [?a =? ?b] =>
      is_num a; is_num b; let v := eval vm_compute in (a =? b) in change (a =? b) with v
  end.

Ltac calc :=
  repeat first
    [ calc_step
    | progress (cbn [andb orb negb Date.DAYS_BEFORE_MONTH Date.DAYS_IN_MONTH
                     Date.year Date.month Date.day]) ].

(** [ord2ymd] gives a date of the calendar, and the date whose ordinal is
    the number it was given. *)
Lemma ord2ymd_correct (n : Z) :
  1 ≤ n ≤ Date.MAXORDINAL →
  Date.valid (Date.ord2ymd n) = true ∧ Date.toordinal (Date.ord2ymd n) = n.
Proof.
  unfold Date.MAXORDINAL. intros Hn. unfold Date.ord2ymd. cbv zeta.
  set (q400 := (n - 1) / 146097).
  set (r1 := (n - 1) mod 146097).
  set (q100 := r1 / 36524).
  set (r2 := r1 mod 36524).
  set (q4 := r2 / 1461).
  set (r3 := r2 mod 1461).
  set (q1 := r3 / 365).
  set (r4 := r3 mod 365).
  assert (E1 : n - 1 = 146097 * q400 + r1 ∧ 0 ≤ r1 < 146097)
    by (unfold q400, r1; Z.div_mod_to_equations; lia).
  assert (E2 : r1 = 36524 * q100 + r2 ∧ 0 ≤ r2 < 36524)
    by (unfold q100, r2; Z.div_mod_to_equations; lia).
  assert (E3 : r2 = 1461 * q4 + r3 ∧ 0 ≤ r3 < 1461)
    by (unfold q4, r3; Z.div_mod_to_equations; lia).
  assert (E4 : r3 = 365 * q1 + r4 ∧ 0 ≤ r4 < 365)
    by (unfold q1, r4; Z.div_mod_to_equations; lia).
  clearbody q400 r1 q100 r2 q4 r3 q1 r4.
  assert (B : 0 ≤ q400 ≤ 24 ∧ 0 ≤ q100 ≤ 4 ∧ 0 ≤ q4 ≤ 24 ∧ 0 ≤ q1 ≤ 4) by lia.
  destruct (Z.eqb_spec q1 4) as [Hq1|Hq1]; [|destruct (Z.eqb_spec q100 4) as [Hq100|Hq100]];
    cbn [orb].
  - destruct (year_end_of_parts q400 q100 q4 q1) as [Hd Hl]; [lia|].
    unfold Date.valid, Date.toordinal, Date.ymd2ord, Date.days_in_month,
      Date.days_before_month. cbn [Date.year Date.month Date.day].
    rewrite Hl. calc. split; [split_tests; try reflexivity; lia | lia].
  - destruct (year_end_of_parts q400 q100 q4 q1) as [Hd Hl]; [lia|].
    unfold Date.valid, Date.toordinal, Date.ymd2ord, Date.days_in_month,
      Date.days_before_month. cbn [Date.year Date.month Date.day].
    rewrite Hl. calc. split; [split_tests; try reflexivity; lia | lia].
  - destruct (year_of_parts q400 q100 q4 q1) as [Hd Hl]; [lia..|].
    rewrite Z.shiftr_div_pow2 by lia. change (2 ^ 5) with 32.
    set (m := (r4 + 50) / 32).
    assert (Em : 32 * m ≤ r4 + 50 < 32 * m + 32)
      by (unfold m; Z.div_mod_to_equations; lia).
    clearbody m.
    assert (Hm : 1 ≤ m ≤ 12) by lia.
    set (y := q400 * 400 + 1 + q100 * 100 + q4 * 4 + q1) in *.
    assert (Hy : 1 ≤ y ≤ 9999) by (unfold y; lia).
    rewrite <- Hl. clear Hl. clearbody y.
    destruct (Date.is_leap y) eqn:Hleap;
    destruct (month_cases m Hm) as [->|[->|[->|[->|[->|[->|[->|[->|[->|[->|[->| ->]]]]]]]]]]];
      calc; split_tests;
      unfold Date.valid, Date.toordinal, Date.ymd2ord, Date.days_in_month,
        Date.days_before_month;
      cbn [Date.year Date.month Date.day]; rewrite ?Hleap; calc;
      (split; [split_tests; try reflexivity; lia | lia]).
Qed.

(** ** Writing and reading a date *)

(** A property of every number of a short range, checked on each. *)
Lemma forall_range (P : Z → Prop) (len : nat) (lo : Z) :
  (∀ k : nat, (k < len)%nat → P (lo + Z.of_nat k)) →
  ∀ z, lo ≤ z < lo + Z.of_nat len → P z.
Proof.
  intros H z Hz. replace z with (lo + Z.of_nat (Z.to_nat (z - lo))) by lia.
  apply H. lia.
Qed.

Lemma digit_char_spec (k : Z) :
  0 ≤ k ≤ 9 →
  Py.is_digit (Date.digit_char k) = true ∧ Py.digit_val (Date.digit_char k) = k.
Proof.
  intros Hk. pattern k. apply (forall_range _ 10 0); [|lia].
  intros i Hi. do 10 (destruct i as [|i]; [by vm_compute|]). lia.
Qed.

Lemma parse_month_pad2 (m : Z) (rest : string) :
  1 ≤ m ≤ 12 →
  Date.parse_month
    (String (Date.digit_char (m / 10 mod 10)) (String (Date.digit_char (m mod 10)) rest))
  = Some (m, rest).
Proof.
  intros Hm. pattern m. apply (forall_range _ 12 1); [|lia].
  intros i Hi. do 12 (destruct i as [|i]; [by vm_compute|]). lia.
Qed.

Lemma parse_day_pad2 (d : Z) :
  1 ≤ d ≤ 31 →
  Date.parse_day
    (String (Date.digit_char (d / 10 mod 10)) (String (Date.digit_char (d mod 10)) ""))
  = Some (d, EmptyString).
Proof.
  intros Hd. pattern d. apply (forall_range _ 31 1); [|lia].
  intros i Hi. do 31 (destruct i as [|i]; [by vm_compute|]). lia.
Qed.

Lemma days_in_month_le_31 (y m : Z) : Date.days_in_month y m ≤ 31.
Proof.
  unfold Date.days_in_month, Date.DAYS_IN_MONTH.
  repeat case_match; lia.
Qed.

(** The text written for a date reads back as that date. *)
Lemma strptime_strftime (d : Date.date) :
  Date.valid d = true → Date.strptime (Date.strftime d) = Py.Return d.
Proof.
  intros Hv. pose proof (valid_bounds d Hv) as (Hy & Hm & Hd).
  pose proof (days_in_month_le_31 (Date.year d) (Date.month d)) as H31.
  destruct d as [y m dd]. cbn [Date.year Date.month Date.day] in *.
  cbv [Date.strftime Date.pad4 Date.pad2 String.append Date.year Date.month Date.day].
  unfold Date.strptime.
  destruct (digit_char_spec (y / 1000 mod 10)) as [D1 V1]; [Z.div_mod_to_equations; lia|].
  destruct (digit_char_spec (y / 100 mod 10)) as [D2 V2]; [Z.div_mod_to_equations; lia|].
  destruct (digit_char_spec (y / 10 mod 10)) as [D3 V3]; [Z.div_mod_to_equations; lia|].
  destruct (digit_char_spec (y mod 10)) as [D4 V4]; [Z.div_mod_to_equations; lia|].
  rewrite D1, D2, D3, D4. cbn [andb].
  rewrite parse_month_pad2 by lia. rewrite parse_day_pad2 by lia.
  rewrite V1, V2, V3, V4.
  replace (1000 * (y / 1000 mod 10) + 100 * (y / 100 mod 10) + 10 * (y / 10 mod 10)
           + y mod 10) with y by (Z.div_mod_to_equations; lia).
  by rewrite Hv.
Qed.

(** What [strptime] returns is a date of the calendar. *)
Lemma strptime_valid (s : string) (d : Date.date) :
  Date.strptime s = Py.Return d → Date.valid d = true.
Proof.
  unfold Date.strptime. intros H.
  repeat case_match; try discriminate. by injection H as <-.
Qed.

(** The text of a day of the calendar reads back as the date of that day. *)
Lemma strptime_isoformat (n : Z) :
  1 ≤ n ≤ Date.MAXORDINAL →
  ∃ d, Date.strptime (Date.isoformat n) = Py.Return d ∧ Date.toordinal d = n.
Proof.
  intros Hn. destruct (ord2ymd_correct n Hn) as [Hv Ho].
  exists (Date.ord2ymd n). split; [|done].
  by apply strptime_strftime.
Qed.

(** ** Issue: the successful case *)



(** ** What one operation does to the students, the books and the log *)

Lemma digit_val_nonneg (c : ascii) : Py.is_digit c = true → 0 ≤ Py.digit_val c.
Proof.
  unfold Py.is_digit, Py.digit_val. rewrite andb_true_iff, !Nat.leb_le. lia.
Qed.

Lemma digits_value_nonneg (s : string) (acc : Z) :
  0 ≤ acc → Py.all_digits s = true → 0 ≤ Py.digits_value acc s.
Proof.
  revert acc. induction s as [|c s IH]; intros acc Hacc; simpl; [done|].
  rewrite andb_true_iff. intros [Hc Hs].
  apply IH; [|done]. apply digit_val_nonneg in Hc. lia.
Qed.

(** The tests on a character, as facts about its code. *)
Ltac char_tests :=
  unfold Py.is_digit, Py.is_superscript, Py.is_space, Py.is_upper in *;
  cbv zeta in *;
  repeat first
    [ rewrite andb_true_iff in * | rewrite orb_true_iff in *
    | rewrite andb_false_iff in * | rewrite orb_false_iff in *
    | rewrite negb_true_iff in * | rewrite negb_false_iff in *
    | rewrite Nat.leb_le in * | rewrite Nat.leb_gt in *
    | rewrite Nat.eqb_eq in * | rewrite Nat.eqb_neq in * ].

Lemma digit_not_space (c : ascii) :
  Py.is_digit c || Py.is_superscript c = true → Py.is_space c = false.
Proof. char_tests. lia. Qed.

Lemma superscript_not_digit (c : ascii) :
  Py.is_superscript c = true → Py.is_digit c = false.
Proof. char_tests. lia. Qed.

Lemma digit_not_sign (c : ascii) :
  Py.is_digit c || Py.is_superscript c = true →
  c ≠ "-"%char ∧ c ≠ "+"%char ∧ c ≠ "_"%char.
Proof. intros H. split_and!; intros ->; by vm_compute in H. Qed.

Lemma all_digits_append (a b : string) :
  Py.all_digits (a +:+ b) = Py.all_digits a && Py.all_digits b.
Proof.
  induction a as [|c a IH]; [done|].
  rewrite append_cons. cbn [Py.all_digits]. by rewrite IH, andb_assoc.
Qed.

(** On a text that [isdigit] accepts, the scan stops at the end or at the
    first superscript. *)
Lemma scan_digits_all_isdigit (s : string) :
  Py.all_isdigit s = true →
  ∃ ds rest,
    Py.scan_digits s = Some (ds, rest) ∧ s = ds +:+ rest
    ∧ Py.all_digits ds = true
    ∧ (rest = "" ∨ ∃ c r, rest = String c r ∧ Py.is_superscript c = true).
Proof.
  induction s as [|c s IH]; cbn [Py.all_isdigit Py.scan_digits].
  - intros _. exists "", "". auto.
  - rewrite andb_true_iff. intros [Hc Hs].
    destruct (digit_not_sign c Hc) as (_ & _ & Hu).
    destruct (Py.is_digit c) eqn:Hd.
    + destruct (IH Hs) as (ds & rest & -> & -> & Hds & Hrest).
      exists (String c ds), rest. cbn [Py.all_digits]. rewrite Hd, Hds. auto.
    + rewrite bool_decide_false by done.
      exists "", (String c s). split_and!; [done..|].
      right. exists c, s. split; [done|]. by destruct (Py.is_superscript c).
Qed.

(** What [int] makes of a text that [isdigit] accepts: the value of the
    digits when all are decimal digits and there are no more of them than
    the limit, and a [ValueError] otherwise. *)
Lemma int_isdigit (s : string) :
  Py.isdigit s = true →
  Py.int s =
  if Py.all_digits s && (Z.of_nat (String.length s) <=? Py.max_str_digits)
  then Py.Return (Py.digits_value 0 s) else Py.Raise Py.ValueError.
Proof.
  destruct s as [|c s]; [done|]. cbn [Py.isdigit]. intros Hall.
  destruct (scan_digits_all_isdigit _ Hall) as (ds & rest & Hscan & Hs & Hds & Hrest).
  cbn [Py.all_isdigit] in Hall. apply andb_true_iff in Hall as [Hc _].
  destruct (digit_not_sign c Hc) as (Hm & Hp & _).
  unfold Py.int. cbn [Py.lstrip]. rewrite (digit_not_space c Hc).
  cbn [Py.sign_split]. rewrite !bool_decide_false by done.
  clear Hc. destruct (Py.is_digit c) eqn:Hd; [|by cbn [Py.all_digits]; rewrite Hd].
  rewrite Hscan, Hs, all_digits_append, Hds. cbn [andb].
  destruct Hrest as [->|(c' & r & -> & Hc')].
  - rewrite append_nil_r. cbn [Py.all_digits Py.lstrip].
    destruct (Z.ltb_spec Py.max_str_digits (Z.of_nat (String.length ds)));
      destruct (Z.leb_spec (Z.of_nat (String.length ds)) Py.max_str_digits);
      first [done | lia].
  - cbn [Py.all_digits Py.lstrip].
    rewrite (superscript_not_digit c' Hc'). cbn [andb].
    rewrite (digit_not_space c') by (by rewrite Hc', orb_true_r).
    by destruct (_ <? _).
Qed.

(** When the form lets a number of copies through and [int] reads it, the
    number is the value of its digits and is not negative. *)
Lemma int_isdigit_Return (s : string) (n : Z) :
  Py.isdigit s = true → Py.int s = Py.Return n →
  Py.all_digits s = true
  ∧ Z.of_nat (String.length s) ≤ Py.max_str_digits
  ∧ n = Py.digits_value 0 s ∧ 0 ≤ n.
Proof.
  intros Hd. rewrite (int_isdigit s Hd).
  destruct (Py.all_digits s) eqn:Hall; [|done].
  destruct (Z.leb_spec (Z.of_nat (String.length s)) Py.max_str_digits); [|done].
  cbn [andb]. intros [= <-]. split_and!; [done..|]. by apply digits_value_nonneg.
Qed.

Lemma step_within_limit (w : System) (o : op) :
  within_limit w → within_limit (step w o).
Proof.
  unfold within_limit. intros Hw. destruct o as [bid sid now|bid sid rd now| | | |]; cbn [step].
  - destruct (issue_book_cases w bid sid now)
      as [[-> _]|(i & b & j & s & Hb & Hs & Hc & Hl & Hn & ->)]; [done|].
    cbn. apply Forall_insert; [done|]. cbn. rewrite length_app. cbn. lia.
  - destruct (return_book_cases w bid sid rd now)
      as [[-> _]|(i & b & j & s & first & rest & piece & p & Hb & Hs & Hf & Hp & Hc & ->)];
      [done|].
    cbn. apply Forall_insert; [done|]. cbn.
    apply find_student_Some in Hs as [Hs _].
    pose proof (Forall_lookup_1 _ _ _ _ Hw Hs) as Hlen. cbn in Hlen.
    pose proof (list_remove_first_length first (borrowed_books s)). lia.
  - unfold add_book. destruct (negb _); [done|].
    destruct (Py.int copies); done.
  - unfold add_student. destruct (negb _); [done|].
    cbn. apply Forall_app. split; [done|]. repeat constructor.
  - done.
  - done.
Qed.

Lemma step_copies_non_negative (w : System) (o : op) :
  copies_non_negative w → copies_non_negative (step w o).
Proof.
  unfold copies_non_negative. intros Hw.
  destruct o as [bid sid now|bid sid rd now|bid ttl auth copies| | |]; cbn [step].
  - destruct (issue_book_cases w bid sid now)
      as [[-> _]|(i & b & j & s & Hb & Hs & Hc & Hl & Hn & ->)]; [done|].
    cbn. apply Forall_insert; [done|]. cbn. lia.
  - destruct (return_book_cases w bid sid rd now)
      as [[-> _]|(i & b & j & s & first & rest & piece & p & Hb & Hs & Hf & Hp & Hc & ->)];
      [done|].
    cbn. apply Forall_insert; [done|]. cbn.
    apply find_book_Some in Hb as [Hb _].
    pose proof (Forall_lookup_1 _ _ _ _ Hw Hb) as Hcopies. cbn in Hcopies. lia.
  - unfold add_book. destruct (negb _) eqn:Hchk; [done|].
    apply negb_false_iff in Hchk. rewrite !andb_true_iff in Hchk.
    destruct Hchk as [_ Hd].
    destruct (Py.int copies) as [n|e] eqn:Hint; [|done].
    destruct (int_isdigit_Return copies n Hd Hint) as (_ & _ & _ & Hn).
    cbn. apply Forall_app. split; [done|]. by repeat constructor.
  - unfold add_student. by destruct (negb _).
  - done.
  - done.
Qed.

Lemma run_app (w : System) (ops1 ops2 : list op) :
  run w (ops1 ++ ops2) = run (run w ops1) ops2.
Proof. revert w. induction ops1 as [|o ops1 IH]; intros w; [done | apply IH]. Qed.

Lemma run_within_limit (w : System) (ops : list op) :
  within_limit w → within_limit (run w ops).
Proof.
  revert w. induction ops as [|o ops IH]; intros w Hw; [done|].
  apply IH. by apply step_within_limit.
Qed.

Lemma run_copies_non_negative (w : System) (ops : list op) :
  copies_non_negative w → copies_non_negative (run w ops).
Proof.
  revert w. induction ops as [|o ops IH]; intros w Hw; [done|].
  apply IH. by apply step_copies_non_negative.
Qed.

(** ** The borrow limit *)

(** C3. No student ever holds more than three loans: from a state where
    that is so, it is so after each operation of any sequence.  An
    [issue_book] for a student who holds three loans changes nothing, in
    memory or on disk, and issues nothing; when the book asked for exists
    and has a copy left, so that the limit is the check that fails, the
    result is BorrowLimitReached. *)
Theorem C3_borrow_limit :
  within_limit fresh
  ∧ (∀ (w : System) (ops : list op) (k : nat),
       within_limit w → within_limit (run w (take k ops)))
  ∧ (∀ (w : System) (bid sid : string) (now : Z) (j : nat) (s : Student),
       find_student (lib w) sid = Some (j, s) →
       List.length (borrowed_books s) = 3%nat →
       snd (issue_book w bid sid now) = w
       ∧ issued (fst (issue_book w bid sid now)) = false
       ∧ (∀ i b,
            find_book (lib w) bid = Some (i, b) →
            0 < available_copies b →
            fst (issue_book w bid sid now)
            = Py.Return (issue_message BorrowLimitReached))).
Proof.
  split_and!.
  - constructor.
  - intros w ops k Hw. by apply run_within_limit.
  - intros w bid sid now j s Hs Hlen.
    destruct (issue_book_cases w bid sid now)
      as [[Hw Hi]|(i & b & j' & s' & Hb & Hs' & Hc & Hl & Hn & Heq)].
    + split_and!; [done..|].
      intros i b Hb Hc.
      rewrite (issue_book_at_limit w bid sid now i b j s); [done..|lia].
    + rewrite Hs in Hs'. injection Hs' as <- <-. lia.
Qed.

Lemma C3_borrow_limit_witness :
  within_limit (run sample (take 2 [IssueBook "B12" "S3" day_2024_01_01;
                                    IssueBook "B12" "S3" day_2024_01_01;
                                    IssueBook "B12" "S3" day_2024_01_01]))
  ∧ snd (issue_book sample "B1" "S2" day_2024_01_01) = sample
  ∧ issued (fst (issue_book sample "B1" "S2" day_2024_01_01)) = false
  ∧ fst (issue_book sample "B1" "S2" day_2024_01_01)
    = Py.Return (issue_message BorrowLimitReached).
Proof.
  destruct C3_borrow_limit as (_ & Hrun & Hfull).
  split.
  - apply Hrun. unfold within_limit. cbn.
    repeat (constructor; [cbn; lia|]). constructor.
  - destruct (Hfull sample "B1" "S2" day_2024_01_01 1%nat
                (mkStudent "S2" "Bob"
                   ["B12 (Due: 2024-01-15)"; "B3 (Due: 2024-01-16)";
                    "B12 (Due: 2024-01-17)"]))
      as (Hsame & Hnot & Hmsg).
    + reflexivity.
    + reflexivity.
    + split_and!; [exact Hsame | exact Hnot |].
      apply (Hmsg 0%nat (mkBook "B1" "Dune" "Frank Herbert" 1)).
      * reflexivity.
      * simpl. lia.
Defined.

(** ** Copies *)

(** The book found by its identifier is found at the same place after its
    copies have been changed. *)
Lemma find_book_insert (l : list Book) (bid : string) (i : nat) (b b' : Book) :
  list_find (λ x, book_id x = bid) l = Some (i, b) →
  book_id b' = bid →
  list_find (λ x, book_id x = bid) (<[i:=b']> l) = Some (i, b').
Proof.
  intros Hf Hid. apply list_find_Some in Hf as (Hi & _ & Hleast).
  apply list_find_insert_Some. right. left.
  split_and!; [done | done | by eapply lookup_lt_Some | done |].
  intros k z Hk Hlt. by eapply Hleast.
Qed.

Lemma find_student_insert (l : list Student) (sid : string) (j : nat) (s s' : Student) :
  list_find (λ x, student_id x = sid) l = Some (j, s) →
  student_id s' = sid →
  list_find (λ x, student_id x = sid) (<[j:=s']> l) = Some (j, s').
Proof.
  intros Hf Hid. apply list_find_Some in Hf as (Hi & _ & Hleast).
  apply list_find_insert_Some. right. left.
  split_and!; [done | done | by eapply lookup_lt_Some | done |].
  intros k z Hk Hlt. by eapply Hleast.
Qed.

(** C5. The number of copies of a book never becomes negative: from a state
    where no book has a negative count, none has after each operation of
    any sequence.  A successful issue takes exactly one copy from the book
    found, a successful return of it gives exactly one back, and a
    successful issue followed by the successful return of the same book by
    the same student leaves every book with the count it had. *)
Theorem C5_copies :
  copies_non_negative fresh
  ∧ (∀ (w : System) (ops : list op) (k : nat),
       copies_non_negative w → copies_non_negative (run w (take k ops)))
  ∧ (∀ (w : System) (bid sid : string) (now : Z) (i : nat) (b : Book),
       find_book (lib w) bid = Some (i, b) →
       issued (fst (issue_book w bid sid now)) = true →
       ∃ b', books (lib (snd (issue_book w bid sid now))) !! i = Some b'
             ∧ available_copies b' = available_copies b - 1)
  ∧ (∀ (w : System) (bid sid rd : string) (now : Z) (i : nat) (b : Book),
       find_book (lib w) bid = Some (i, b) →
       returned (fst (return_book w bid sid rd now)) = true →
       ∃ b', books (lib (snd (return_book w bid sid rd now))) !! i = Some b'
             ∧ available_copies b' = available_copies b + 1)
  ∧ (∀ (w : System) (bid sid rd : string) (now now' : Z),
       issued (fst (issue_book w bid sid now)) = true →
       returned (fst (return_book (snd (issue_book w bid sid now)) bid sid rd now')) = true →
       books (lib (snd (return_book (snd (issue_book w bid sid now)) bid sid rd now')))
       = books (lib w)).
Proof.
  split_and!.
  - constructor.
  - intros w ops k Hw. by apply run_copies_non_negative.
  - intros w bid sid now i b Hb Hi.
    destruct (issue_book_cases w bid sid now)
      as [[_ Hno]|(i' & b' & j & s & Hb' & Hs & Hc & Hl & Hn & Heq)]; [congruence|].
    rewrite Hb in Hb'. injection Hb' as <- <-. rewrite Heq. cbn.
    apply find_book_Some in Hb as [Hb _].
    eexists. split; [apply list_lookup_insert_eq; by eapply lookup_lt_Some | done].
  - intros w bid sid rd now i b Hb Hr.
    destruct (return_book_cases w bid sid rd now)
      as [[_ Hno]|(i' & b' & j & s & first & rest & piece & p & Hb' & Hs & Hf & Hp & Hc & Heq)];
      [congruence|].
    rewrite Hb in Hb'. injection Hb' as <- <-. rewrite Heq. cbn.
    apply find_book_Some in Hb as [Hb _].
    eexists. split; [apply list_lookup_insert_eq; by eapply lookup_lt_Some | done].
  - intros w bid sid rd now now' Hi Hr.
    destruct (issue_book_cases w bid sid now)
      as [[_ Hno]|(i & b & j & s & Hb & Hs & Hc & Hl & Hn & Heq)]; [congruence|].
    rewrite Heq in Hr |- *. cbn [snd] in *.
    set (w1 := issued_state w bid sid now i b j s (now + 14)) in *.
    pose proof (find_book_Some _ _ _ _ Hb) as [Hbi Hbid].
    assert (Hb1 : find_book (lib w1) bid
                  = Some (i, mkBook (book_id b) (title b) (author b) (available_copies b - 1)))
      by (unfold find_book; cbn; eapply find_book_insert; [exact Hb | done]).
    destruct (return_book_cases w1 bid sid rd now')
      as [[_ Hno]|(i' & b' & j' & s' & first & rest & piece & p & Hb' & Hs' & Hf & Hp & Hcp & Heq')];
      [congruence|].
    rewrite Hb1 in Hb'. injection Hb' as <- <-. rewrite Heq'. cbn.
    rewrite list_insert_insert_eq.
    apply list_insert_id. rewrite Hbi. destruct b. cbn. f_equal. f_equal. lia.
Qed.

Lemma C5_copies_witness :
  copies_non_negative
    (run sample (take 1 [IssueBook "B12" "S1" day_2024_01_01;
                         ReturnBook "B12" "S1" "2024-01-20" day_2024_01_01]))
  ∧ (∃ b', books (lib (snd (issue_book sample "B12" "S1" day_2024_01_01))) !! 1%nat
           = Some b' ∧ available_copies b' = 2 - 1)
  ∧ (∃ b', books (lib (snd (return_book sample "B12" "S3" "2024-01-10" day_2024_01_01)))
             !! 1%nat = Some b' ∧ available_copies b' = 2 + 1)
  ∧ books (lib (snd (return_book (snd (issue_book sample "B12" "S1" day_2024_01_01))
                       "B12" "S1" "2024-01-20" day_2024_01_01)))
    = books (lib sample).
Proof.
  destruct C5_copies as (_ & Hrun & Hissue & Hreturn & Hround).
  split_and!.
  - apply Hrun. unfold copies_non_negative. cbn.
    repeat (constructor; [cbn; lia|]). constructor.
  - apply (Hissue sample "B12" "S1" day_2024_01_01 1%nat (mkBook "B12" "Emma" "Jane Austen" 2)).
    + reflexivity.
    + vm_compute. reflexivity.
  - apply (Hreturn sample "B12" "S3" "2024-01-10" day_2024_01_01 1%nat
             (mkBook "B12" "Emma" "Jane Austen" 2)).
    + reflexivity.
    + vm_compute. reflexivity.
  - apply Hround.
    + vm_compute. reflexivity.
    + vm_compute. reflexivity.
Defined.

(** ** The log *)

Lemma step_logs (w : System) (o : op) :
  logs (lib (step w o))
  = logs (lib w) ++ (if transacts w o then log_entry_of o else []).
Proof.
  destruct o as [bid sid now|bid sid rd now|bid ttl auth copies|sid nm| |];
    cbn [step transacts log_entry_of].
  - destruct (issue_book_cases w bid sid now)
      as [[-> ->]|(i & b & j & s & Hb & Hs & Hc & Hl & Hn & ->)];
      [by rewrite app_nil_r|].
    cbn [fst snd]. by rewrite issued_message.
  - destruct (return_book_cases w bid sid rd now)
      as [[-> ->]|(i & b & j & s & first & rest & piece & p & Hb & Hs & Hf & Hp & Hc & ->)];
      [by rewrite app_nil_r|].
    cbn [fst snd]. by rewrite returned_message.
  - rewrite app_nil_r. unfold add_book. destruct (negb _); [done|].
    by destruct (Py.int copies).
  - rewrite app_nil_r. unfold add_student. by destruct (negb _).
  - by rewrite app_nil_r.
  - by rewrite app_nil_r.
Qed.

Lemma run_logs (w : System) (ops : list op) :
  logs (lib (run w ops)) = logs (lib w) ++ written w ops.
Proof.
  revert w. induction ops as [|o ops IH]; intros w; cbn [run written].
  - by rewrite app_nil_r.
  - by rewrite IH, step_logs, app_assoc.
Qed.

Lemma written_length (w : System) (ops : list op) :
  List.length (written w ops) = transactions w ops.
Proof.
  revert w. induction ops as [|o ops IH]; intros w; cbn [written transactions]; [done|].
  rewrite length_app, IH. f_equal.
  destruct (transacts w o) eqn:Ht; [|done].
  by destruct o.
Qed.




(** ** What a transaction leaves alone *)

(** C10. A successful issue or return leaves every book other than the one
    with the given identifier, and every student other than the one with
    the given identifier, exactly as it was; the books and the students
    keep their places; and the book and the student concerned keep their
    identifier, title and author, identifier and name. *)
Theorem C10_frame (w w' : System) (bid sid : string) :
  (∃ now, issued (fst (issue_book w bid sid now)) = true
          ∧ w' = snd (issue_book w bid sid now))
  ∨ (∃ return_date now,
       returned (fst (return_book w bid sid return_date now)) = true
       ∧ w' = snd (return_book w bid sid return_date now)) →
  List.length (books (lib w')) = List.length (books (lib w))
  ∧ List.length (students (lib w')) = List.length (students (lib w))
  ∧ (∀ k b, books (lib w) !! k = Some b →
       ∃ b', books (lib w') !! k = Some b'
             ∧ book_id b' = book_id b ∧ title b' = title b ∧ author b' = author b
             ∧ (book_id b ≠ bid → b' = b))
  ∧ (∀ k s, students (lib w) !! k = Some s →
       ∃ s', students (lib w') !! k = Some s'
             ∧ student_id s' = student_id s ∧ name s' = name s
             ∧ (student_id s ≠ sid → s' = s)).
Proof.
  intros H.
  assert (∃ i b j s copies loans,
             find_book (lib w) bid = Some (i, b)
             ∧ find_student (lib w) sid = Some (j, s)
             ∧ books (lib w')
               = <[i := mkBook (book_id b) (title b) (author b) copies]> (books (lib w))
             ∧ students (lib w')
               = <[j := mkStudent (student_id s) (name s) loans]> (students (lib w)))
    as (i & b & j & s & copies & loans & Hb & Hs & -> & ->).
  { destruct H as [(now & Hi & ->)|(rd & now & Hr & ->)].
    - destruct (issue_book_cases w bid sid now)
        as [[_ Hno]|(i & b & j & s & Hb & Hs & Hc & Hl & Hn & ->)]; [congruence|].
      by eexists i, b, j, s, _, _.
    - destruct (return_book_cases w bid sid rd now)
        as [[_ Hno]|(i & b & j & s & first & rest & piece & p & Hb & Hs & Hf & Hp & Hc & ->)];
        [congruence|].
      by eexists i, b, j, s, _, _. }
  apply find_book_Some in Hb as [Hbi Hbid].
  apply find_student_Some in Hs as [Hsj Hsid].
  rewrite !length_insert. split_and!; [done | done | |].
  - intros k c Hk. destruct (decide (k = i)) as [->|Hne].
    + rewrite Hbi in Hk. injection Hk as <-.
      eexists. split; [apply list_lookup_insert_eq; by eapply lookup_lt_Some|].
      cbn. split_and!; [done..|]. intros Hid. by destruct Hid.
    + exists c. rewrite list_lookup_insert_ne by done. done.
  - intros k c Hk. destruct (decide (k = j)) as [->|Hne].
    + rewrite Hsj in Hk. injection Hk as <-.
      eexists. split; [apply list_lookup_insert_eq; by eapply lookup_lt_Some|].
      cbn. split_and!; [done..|]. intros Hid. by destruct Hid.
    + exists c. rewrite list_lookup_insert_ne by done. done.
Qed.

Lemma C10_frame_witness :
  let w' := snd (issue_book sample "B12" "S1" day_2024_01_01) in
  List.length (books (lib w')) = List.length (books (lib sample))
  ∧ List.length (students (lib w')) = List.length (students (lib sample))
  ∧ (∀ k b, books (lib sample) !! k = Some b →
       ∃ b', books (lib w') !! k = Some b'
             ∧ book_id b' = book_id b ∧ title b' = title b ∧ author b' = author b
             ∧ (book_id b ≠ "B12" → b' = b))
  ∧ (∀ k s, students (lib sample) !! k = Some s →
       ∃ s', students (lib w') !! k = Some s'
             ∧ student_id s' = student_id s ∧ name s' = name s
             ∧ (student_id s ≠ "S1" → s' = s)).
Proof.
  apply (C10_frame sample (snd (issue_book sample "B12" "S1" day_2024_01_01)) "B12" "S1").
  left. exists day_2024_01_01. split; [vm_compute; reflexivity | reflexivity].
Defined.

(** ** The penalty *)

(** C4. For two texts that read as dates of the calendar, in particular for
    the text of any two such dates, [calculate_penalty] is 0 when the whole
    days from the due date to the return date, less the two days of grace,
    are none or fewer, and otherwise that number of days times the rate of
    1, capped at 50.  Days are counted by ordinals, and the ordinal of the
    next day of the calendar is one more.  The penalty is a number from 0
    to 50.  Due 2024-01-01: a return that day costs 0, on 2024-01-04 it
    costs 1, on 2024-06-01 it costs 50. *)
Theorem C4_calculate_penalty :
  (∀ (due ret : string) (d1 d2 : Date.date),
     Date.strptime due = Py.Return d1 →
     Date.strptime ret = Py.Return d2 →
     let overdue_days := (Date.toordinal d2 - Date.toordinal d1) - 2 in
     calculate_penalty due ret
     = Py.Return (if decide (overdue_days ≤ 0) then 0 else Z.min (overdue_days * 1) 50)
     ∧ ∃ p, calculate_penalty due ret = Py.Return p ∧ 0 ≤ p ≤ 50)
  ∧ (∀ (d1 d2 : Date.date),
       Date.valid d1 = true →
       Date.valid d2 = true →
       let overdue_days := (Date.toordinal d2 - Date.toordinal d1) - 2 in
       calculate_penalty (Date.strftime d1) (Date.strftime d2)
       = Py.Return (if decide (overdue_days ≤ 0) then 0 else Z.min (overdue_days * 1) 50))
  ∧ (∀ d : Date.date,
       Date.valid d = true → Date.toordinal (next_day d) = Date.toordinal d + 1)
  ∧ calculate_penalty "2024-01-01" "2024-01-01" = Py.Return 0
  ∧ calculate_penalty "2024-01-01" "2024-01-04" = Py.Return 1
  ∧ calculate_penalty "2024-01-01" "2024-06-01" = Py.Return 50.
Proof.
  assert (Hgen : ∀ (due ret : string) (d1 d2 : Date.date),
     Date.strptime due = Py.Return d1 →
     Date.strptime ret = Py.Return d2 →
     calculate_penalty due ret
     = Py.Return (if decide (Date.toordinal d2 - Date.toordinal d1 - 2 ≤ 0) then 0
                  else Z.min ((Date.toordinal d2 - Date.toordinal d1 - 2) * 1) 50)).
  { intros due ret d1 d2 H1 H2. unfold calculate_penalty. rewrite H1, H2. cbn [bind].
    unfold GRACE_PERIOD, BASE_PENALTY_RATE, MAX_PENALTY.
    destruct (Z.leb_spec (Date.toordinal d2 - Date.toordinal d1 - 2) 0);
      case_decide; (done || lia). }
  split_and!.
  - intros due ret d1 d2 H1 H2 overdue_days. split; [by apply Hgen|].
    rewrite (Hgen due ret d1 d2 H1 H2). eexists. split; [done|].
    case_decide; lia.
  - intros d1 d2 H1 H2 overdue_days. apply Hgen; by apply strptime_strftime.
  - apply toordinal_next_day.
  - reflexivity.
  - reflexivity.
  - reflexivity.
Qed.

Lemma C4_calculate_penalty_witness :
  (calculate_penalty "2024-02-28" "2024-03-05" = Py.Return 4
   ∧ ∃ p, calculate_penalty "2024-02-28" "2024-03-05" = Py.Return p ∧ 0 ≤ p ≤ 50)
  ∧ calculate_penalty (Date.strftime (Date.mkdate 2023 12 25))
                      (Date.strftime (Date.mkdate 2024 1 1)) = Py.Return 5
  ∧ Date.toordinal (next_day (Date.mkdate 2024 2 29))
    = Date.toordinal (Date.mkdate 2024 2 29) + 1.
Proof.
  destruct C4_calculate_penalty as (Htext & Hdate & Hnext & _).
  split; [|split].
  - apply (Htext "2024-02-28" "2024-03-05" (Date.mkdate 2024 2 28) (Date.mkdate 2024 3 5));
      reflexivity.
  - apply (Hdate (Date.mkdate 2023 12 25) (Date.mkdate 2024 1 1)); reflexivity.
  - apply Hnext. reflexivity.
Defined.

(** ** Search *)

Lemma nat_of_ascii_inj (a b : ascii) : nat_of_ascii a = nat_of_ascii b → a = b.
Proof.
  intros H. rewrite <- (ascii_nat_embedding a), <- (ascii_nat_embedding b). by rewrite H.
Qed.

Lemma is_upper_spec (c : ascii) :
  Py.is_upper c = true ↔
  (65 ≤ nat_of_ascii c ≤ 90)%nat
  ∨ (192 ≤ nat_of_ascii c ≤ 222)%nat ∧ nat_of_ascii c ≠ 215%nat.
Proof. char_tests. lia. Qed.

(** The small letter of a capital is what [lower] makes of it, and is
    itself no capital. *)
Lemma small_of_spec (a b : ascii) :
  small_of a b ↔
  Py.is_upper a = true ∧ b = ascii_of_nat (nat_of_ascii a + 32).
Proof.
  split.
  - intros [n Hn|n Hn Hx];
      (rewrite is_upper_spec, nat_ascii_embedding by lia; split; [lia | done]).
  - intros [Ha ->]. apply is_upper_spec in Ha.
    rewrite <- (ascii_nat_embedding a) at 1.
    destruct Ha as [Ha|[Ha Hx]]; [by apply small_of_basic | by apply small_of_latin].
Qed.

Lemma small_not_upper (a b : ascii) : small_of a b → Py.is_upper b = false.
Proof.
  intros [n Hn|n Hn Hx]; apply not_true_is_false; rewrite is_upper_spec;
    rewrite nat_ascii_embedding by lia; lia.
Qed.

(** Two characters have the same lower case exactly when they are the same
    letter. *)
Lemma lower_char_same_letter (a b : ascii) :
  Py.lower_char a = Py.lower_char b ↔ same_letter a b.
Proof.
  unfold same_letter. split.
  - unfold Py.lower_char.
    destruct (Py.is_upper a) eqn:Ha, (Py.is_upper b) eqn:Hb; intros H.
    + left. apply nat_of_ascii_inj.
      apply is_upper_spec in Ha, Hb. apply (f_equal nat_of_ascii) in H.
      rewrite !nat_ascii_embedding in H by lia. lia.
    + right. left. by apply small_of_spec.
    + right. right. by apply small_of_spec.
    + by left.
  - intros [->|[H|H]]; [done| |].
    + pose proof (small_not_upper _ _ H) as Hb. apply small_of_spec in H as [Ha ->].
      unfold Py.lower_char at 1. rewrite Ha.
      unfold Py.lower_char. by rewrite Hb.
    + pose proof (small_not_upper _ _ H) as Ha. apply small_of_spec in H as [Hb ->].
      unfold Py.lower_char at 2. rewrite Hb.
      unfold Py.lower_char. by rewrite Ha.
Qed.

Lemma lower_same_text (s t : string) : Py.lower s = Py.lower t ↔ same_text s t.
Proof.
  split.
  - revert t. induction s as [|a s IH]; intros [|b t]; cbn [Py.lower]; try done.
    + intros _. constructor.
    + intros [= Hc Hs]. constructor; [by apply lower_char_same_letter | by apply IH].
  - induction 1 as [|a b s t Hab _ IH]; [done|]. cbn [Py.lower].
    apply lower_char_same_letter in Hab. by rewrite Hab, IH.
Qed.

(** The test of the two searches, [query.lower() in text.lower()], holds
    exactly when the query occurs in the text up to letter case. *)
Lemma ci_substring_spec (q s : string) :
  Py.contains (Py.lower q) (Py.lower s) = true ↔ ci_substring q s.
Proof.
  rewrite contains_spec. unfold ci_substring. split.
  - intros (pre & post & H).
    apply lower_split in H as (s1 & s2 & -> & H1 & H2).
    apply lower_split in H2 as (m & p & -> & Hm & Hp).
    exists s1, m, p. split; [done|]. by apply lower_same_text.
  - intros (pre & mid & post & -> & Hm). apply lower_same_text in Hm.
    exists (Py.lower pre), (Py.lower post).
    by rewrite !lower_append, Hm.
Qed.

Lemma filter_all {A : Type} (f : A → bool) (l : list A) :
  (∀ x, f x = true) → List.filter f l = l.
Proof.
  intros H. induction l as [|x l IH]; cbn; [done|]. by rewrite H, IH.
Qed.



(** ** Returns and the loan they match *)

(** A loan written by [issue_book] for [bid] contains [bid]. *)
Lemma loan_for_contains (bid entry : string) :
  loan_for bid entry = true → Py.contains bid entry = true.
Proof.
  unfold loan_for. rewrite startswith_spec, contains_spec.
  intros [t ->]. exists EmptyString, (" (Due: " +:+ t).
  by rewrite append_assoc.
Qed.

(** With both records found, [return_book] reports that the student did
    not borrow the book exactly when no entry of the student contains the
    identifier as a piece of its text, and then nothing changes. *)
Lemma return_book_loan_not_found (w : System) (bid sid rd : string) (now : Z)
    (i : nat) (b : Book) (j : nat) (s : Student) :
  find_book (lib w) bid = Some (i, b) →
  find_student (lib w) sid = Some (j, s) →
  (fst (return_book w bid sid rd now) = Py.Return (return_message LoanNotFound)
   ↔ Forall (λ e, Py.contains bid e = false) (borrowed_books s))
  ∧ (fst (return_book w bid sid rd now) = Py.Return (return_message LoanNotFound) →
     snd (return_book w bid sid rd now) = w).
Proof.
  intros Hb Hs. unfold return_book. cbv zeta. rewrite Hb, Hs.
  destruct (List.filter (λ e, Py.contains bid e) (borrowed_books s))
    as [|first rest] eqn:Hf.
  - split; [|done]. split; [intros _|done].
    apply Forall_forall. intros e He. apply list_elem_of_In in He.
    destruct (Py.contains bid e) eqn:Hc; [|done].
    assert (In e []) as []. rewrite <- Hf. by apply filter_In.
  - assert (Hin : In first (List.filter (λ e, Py.contains bid e) (borrowed_books s)))
      by (rewrite Hf; by left).
    apply filter_In in Hin as [Hin Hc].
    assert (Hnot : ¬ Forall (λ e, Py.contains bid e = false) (borrowed_books s)).
    { rewrite Forall_forall. intros H. apply list_elem_of_In in Hin.
      specialize (H _ Hin). cbn in H. congruence. }
    destruct (Py.split "Due: " first !! 1%nat) as [piece|]; [|by split].
    destruct (calculate_penalty (Py.drop_last piece) rd); by split.
Qed.

(** The entry that a successful return takes out is the first entry, in the
    order of the list, that contains the identifier. *)
Lemma return_book_removes_first (w : System) (bid sid rd : string) (now : Z) :
  returned (fst (return_book w bid sid rd now)) = true →
  ∃ j s pre first post,
    find_student (lib w) sid = Some (j, s)
    ∧ borrowed_books s = pre ++ first :: post
    ∧ Forall (λ e, Py.contains bid e = false) pre
    ∧ Py.contains bid first = true
    ∧ students (lib (snd (return_book w bid sid rd now))) !! j
      = Some (mkStudent (student_id s) (name s) (pre ++ post)).
Proof.
  intros Hr.
  destruct (return_book_cases w bid sid rd now)
    as [[_ Hno]|(i & b & j & s & first & rest & piece & p & Hb & Hs & Hf & Hp & Hc & Heq)];
    [congruence|].
  apply list_remove_first_filter_head in Hf as (pre & post & Hl & Hpre & Hfirst & Hrm).
  exists j, s, pre, first, post. rewrite Heq. cbn. rewrite Hrm.
  split_and!; [done..|].
  apply find_student_Some in Hs as [Hs _].
  apply list_lookup_insert_eq. by eapply lookup_lt_Some.
Qed.

(** C6, at inputs where the program departs from it.  The student S3
    holds one loan, of the book B12, and none of the book B1.  Returning B1
    for S3 is not refused: the identifier B1 is found inside the text of the
    B12 loan, so that loan is removed and the copies of B1 go from 1 to 2.
    The student S4 holds a loan of B12 and then a loan of B1; returning B1
    for S4 takes out the loan of B12, which comes first, and keeps the
    loan of B1. *)
Theorem C6_return_matches_by_containment :
  let r := return_book sample "B1" "S3" "2024-01-10" day_2024_01_01 in
  let r' := return_book sample "B1" "S4" "2024-01-10" day_2024_01_01 in
  find_book (lib sample) "B1" = Some (0%nat, mkBook "B1" "Dune" "Frank Herbert" 1)
  ∧ find_student (lib sample) "S3"
    = Some (2%nat, mkStudent "S3" "Carol" ["B12 (Due: 2024-01-15)"])
  ∧ Forall (λ e, loan_for "B1" e = false) ["B12 (Due: 2024-01-15)"]
  ∧ fst r ≠ Py.Return (return_message LoanNotFound)
  ∧ fst r = Py.Return "Book returned successfully. Penalty: $0"
  ∧ books (lib (snd r)) !! 0%nat = Some (mkBook "B1" "Dune" "Frank Herbert" 2)
  ∧ students (lib (snd r)) !! 2%nat = Some (mkStudent "S3" "Carol" [])
  ∧ find_student (lib sample) "S4"
    = Some (3%nat, mkStudent "S4" "Dan"
                     ["B12 (Due: 2024-01-15)"; "B1 (Due: 2024-01-16)"])
  ∧ loan_for "B1" "B12 (Due: 2024-01-15)" = false
  ∧ loan_for "B1" "B1 (Due: 2024-01-16)" = true
  ∧ fst r' = Py.Return "Book returned successfully. Penalty: $0"
  ∧ students (lib (snd r')) !! 3%nat
    = Some (mkStudent "S4" "Dan" ["B1 (Due: 2024-01-16)"]).
Proof.
  vm_compute. split_and!; try reflexivity.
  - repeat constructor.
  - discriminate.
Qed.

(** ** Numbers as text *)

Lemma digits_value_acc (s : string) (acc : Z) :
  Py.digits_value acc s
  = acc * 10 ^ Z.of_nat (String.length s) + Py.digits_value 0 s.
Proof.
  revert acc. induction s as [|c s IH]; intros acc; cbn [Py.digits_value String.length].
  - change (10 ^ Z.of_nat 0) with 1. lia.
  - rewrite IH, (IH (10 * 0 + Py.digit_val c)).
    rewrite Nat2Z.inj_succ, Z.pow_succ_r by lia. lia.
Qed.

Lemma pretty_N_char_digit (k : N) :
  (k < 10)%N →
  Py.is_digit (pretty_N_char k) = true ∧ Py.digit_val (pretty_N_char k) = Z.of_N k.
Proof.
  intros Hk.
  assert (k = 0 ∨ k = 1 ∨ k = 2 ∨ k = 3 ∨ k = 4 ∨ k = 5 ∨ k = 6 ∨ k = 7 ∨ k = 8 ∨ k = 9)%N
    as [->|[->|[->|[->|[->|[->|[->|[->|[->| ->]]]]]]]]] by lia;
    by vm_compute.
Qed.

(** The digits that [pretty_N_go] puts in front of [s] are those of [x]. *)
Lemma pretty_N_go_digits (x : N) (s : string) :
  Py.all_digits s = true →
  Py.all_digits (pretty_N_go x s) = true
  ∧ Py.digits_value 0 (pretty_N_go x s)
    = Z.of_N x * 10 ^ Z.of_nat (String.length s) + Py.digits_value 0 s
  ∧ (String.length s ≤ String.length (pretty_N_go x s))%nat.
Proof.
  revert s. induction (N.lt_wf_0 x) as [x _ IH]; intros s Hs.
  assert (x = 0 ∨ 0 < x)%N as [->|Hx] by lia.
  { rewrite pretty_N_go_0. split_and!; [done | lia | done]. }
  rewrite pretty_N_go_step by done.
  destruct (pretty_N_char_digit (x `mod` 10)) as [Hd Hv]; [by apply N.mod_lt|].
  destruct (IH (x `div` 10)%N) with (s := String (pretty_N_char (x `mod` 10)) s)
    as (Hall & Hval & Hlen).
  { by apply N.div_lt. }
  { cbn. by rewrite Hd, Hs. }
  split_and!; [done | | etrans; [|exact Hlen]; cbn [String.length]; lia].
  rewrite Hval. cbn [Py.digits_value String.length].
  rewrite (digits_value_acc s (10 * 0 + _)), Hv.
  rewrite Nat2Z.inj_succ, Z.pow_succ_r by lia.
  rewrite N2Z.inj_div, N2Z.inj_mod. change (Z.of_N 10) with 10.
  set (P := 10 ^ Z.of_nat (String.length s)).
  set (X := Z.of_N x).
  assert (HX : X = 10 * (X / 10) + X mod 10) by (Z.div_mod_to_equations; lia).
  rewrite HX at 3. lia.
Qed.

Lemma pretty_pos_digits (p : positive) :
  Py.all_digits (pretty (N.pos p)) = true
  ∧ pretty (N.pos p) ≠ ""
  ∧ Py.digits_value 0 (pretty (N.pos p)) = Z.pos p.
Proof.
  unfold pretty, pretty_N. rewrite decide_False by done.
  assert (Hstep : pretty_N_go (N.pos p) ""
                  = pretty_N_go (N.pos p `div` 10)
                      (String (pretty_N_char (N.pos p `mod` 10)) ""))
    by (by apply pretty_N_go_step).
  destruct (pretty_N_go_digits (N.pos p) "") as (Hall & Hval & _); [done|].
  destruct (pretty_N_go_digits (N.pos p `div` 10)
              (String (pretty_N_char (N.pos p `mod` 10)) "")) as (_ & _ & Hlen).
  { cbn. destruct (pretty_N_char_digit (N.pos p `mod` 10)) as [-> _]; [by apply N.mod_lt|done]. }
  rewrite <- Hstep in Hlen. split_and!.
  - exact Hall.
  - destruct (pretty_N_go (N.pos p) ""); [cbn [String.length] in Hlen; lia | done].
  - rewrite Hval. cbn. lia.
Qed.

Lemma all_digits_all_isdigit (s : string) :
  Py.all_digits s = true → Py.all_isdigit s = true.
Proof.
  induction s as [|c s IH]; [done|]. cbn [Py.all_digits Py.all_isdigit].
  rewrite !andb_true_iff. intros [-> Hs]. auto.
Qed.

(** The decimal digits are read as their value, up to the limit on their
    number. *)
Lemma int_all_digits (s : string) :
  Py.all_digits s = true → s ≠ "" →
  Z.of_nat (String.length s) ≤ Py.max_str_digits →
  Py.int s = Py.Return (Py.digits_value 0 s).
Proof.
  intros Hall Hne Hlen. rewrite int_isdigit.
  - rewrite Hall. by destruct (Z.leb_spec (Z.of_nat (String.length s)) Py.max_str_digits); [|lia].
  - destruct s; [done|]. by apply all_digits_all_isdigit.
Qed.

Example int_max_str_digits :
  Py.int (digits "9" 4300) = Py.Return (Py.digits_value 0 (digits "9" 4300))
  ∧ Py.int (digits "9" 4301) = Py.Raise Py.ValueError
  ∧ Py.int (digits "0" 4301) = Py.Raise Py.ValueError.
Proof.
  split; [|by vm_compute].
  apply int_all_digits; [by vm_compute | done | by vm_compute].
Qed.

Lemma scan_digits_all_digits (s : string) :
  Py.all_digits s = true → Py.scan_digits s = Some (s, "").
Proof.
  induction s as [|c s IH]; [done|]. cbn [Py.all_digits Py.scan_digits].
  rewrite andb_true_iff. intros [-> Hs]. by rewrite IH.
Qed.

Lemma int_minus_all_digits (s : string) :
  Py.all_digits s = true → s ≠ "" →
  Z.of_nat (String.length s) ≤ Py.max_str_digits →
  Py.int (String "-" s) = Py.Return (- Py.digits_value 0 s).
Proof.
  intros Hall Hne Hlen. unfold Py.int. cbn [Py.lstrip].
  change (Py.is_space "-") with false. cbn [Py.sign_split].
  rewrite bool_decide_true by done.
  destruct s as [|c s]; [done|].
  rewrite scan_digits_all_digits by done.
  cbn [Py.all_digits] in Hall. apply andb_true_iff in Hall as [-> _].
  destruct (Z.ltb_spec Py.max_str_digits (Z.of_nat (String.length (String c s))));
    [lia | done].
Qed.

(** What the scan takes is decimal digits. *)
Lemma scan_digits_Some (s ds rest : string) :
  Py.scan_digits s = Some (ds, rest) → Py.all_digits ds = true.
Proof.
  revert ds rest. induction s as [|c s IH]; intros ds rest; cbn [Py.scan_digits].
  - by intros [= <- <-].
  - destruct (Py.is_digit c) eqn:Hc.
    + destruct (Py.scan_digits s) as [[ds' rest']|]; [|done].
      intros [= <- <-]. cbn [Py.all_digits]. rewrite Hc. by eapply IH.
    + case_bool_decide.
      * destruct s as [|c' s']; [done|]. destruct (Py.is_digit c'); [apply IH | done].
      * by intros [= <- <-].
Qed.

(** A number that [int] returns is, up to its sign, the value of at least
    one and at most [max_str_digits] decimal digits. *)
Lemma int_Return (s : string) (n : Z) :
  Py.int s = Py.Return n →
  ∃ ds, Py.all_digits ds = true ∧ ds ≠ ""
        ∧ Z.of_nat (String.length ds) ≤ Py.max_str_digits
        ∧ (n = Py.digits_value 0 ds ∨ n = - Py.digits_value 0 ds).
Proof.
  unfold Py.int. destruct (Py.sign_split (Py.lstrip s)) as [negative body].
  destruct body as [|c body]; [done|].
  destruct (Py.is_digit c) eqn:Hc; [|done].
  destruct (Py.scan_digits (String c body)) as [[ds rest]|] eqn:Hscan; [|done].
  destruct (Z.ltb_spec Py.max_str_digits (Z.of_nat (String.length ds))); [done|].
  destruct (Py.lstrip rest); [|done]. intros [= <-].
  exists ds. split_and!.
  - by eapply scan_digits_Some.
  - cbn [Py.scan_digits] in Hscan. rewrite Hc in Hscan.
    destruct (Py.scan_digits body) as [[? ?]|]; [|done]. by injection Hscan as <- _.
  - done.
  - destruct negative; auto.
Qed.

Lemma int_raises_ValueError (s : string) (e : Py.exn) :
  Py.int s = Py.Raise e → e = Py.ValueError.
Proof. unfold Py.int. intros H. repeat case_match; congruence. Qed.

Lemma digit_val_le_9 (c : ascii) : Py.is_digit c = true → Py.digit_val c ≤ 9.
Proof.
  unfold Py.is_digit, Py.digit_val. rewrite andb_true_iff, !Nat.leb_le. lia.
Qed.

Lemma digits_value_bound (s : string) :
  Py.all_digits s = true →
  0 ≤ Py.digits_value 0 s < 10 ^ Z.of_nat (String.length s).
Proof.
  induction s as [|c s IH]; cbn [Py.all_digits Py.digits_value String.length].
  - intros _. change (10 ^ Z.of_nat 0) with 1. lia.
  - rewrite andb_true_iff. intros [Hc Hs]. specialize (IH Hs).
    rewrite digits_value_acc, Nat2Z.inj_succ, Z.pow_succ_r by lia.
    pose proof (digit_val_nonneg c Hc). pose proof (digit_val_le_9 c Hc).
    set (P := 10 ^ Z.of_nat (String.length s)) in *. nia.
Qed.

(** A number below the [k]th power of ten is written in at most [k]
    digits. *)
Lemma pretty_N_go_length (x : N) (s : string) (k : nat) :
  Z.of_N x < 10 ^ Z.of_nat k →
  (String.length (pretty_N_go x s) ≤ k + String.length s)%nat.
Proof.
  revert s k. induction (N.lt_wf_0 x) as [x _ IH]; intros s k Hx.
  assert (x = 0 ∨ 0 < x)%N as [->|Hpos] by lia.
  { rewrite pretty_N_go_0. lia. }
  rewrite pretty_N_go_step by done.
  destruct k as [|k]; [change (10 ^ Z.of_nat 0) with 1 in Hx; lia|].
  rewrite Nat2Z.inj_succ, Z.pow_succ_r in Hx by lia.
  etrans; [apply (IH (x `div` 10)%N) with (k := k)|].
  - by apply N.div_lt.
  - rewrite N2Z.inj_div. change (Z.of_N 10) with 10.
    set (P := 10 ^ Z.of_nat k) in *. Z.div_mod_to_equations. lia.
  - cbn [String.length]. lia.
Qed.

Lemma str_length (n : Z) (k : nat) :
  0 ≤ n < 10 ^ Z.of_nat k → (1 ≤ k)%nat → (String.length (Py.str n) ≤ k)%nat.
Proof.
  intros Hn Hk. unfold Py.str. destruct n as [|p|p]; [cbn; lia| |lia].
  change (pretty (Z.pos p)) with (pretty (N.pos p)).
  unfold pretty, pretty_N. rewrite decide_False by done.
  pose proof (pretty_N_go_length (N.pos p) "" k) as H.
  cbn [String.length] in H. rewrite Nat.add_0_r in H. apply H. lia.
Qed.

(** What [int] returns, [str] writes within the limit. *)
Lemma int_fits (s : string) (n : Z) : Py.int s = Py.Return n → Py.fits n = true.
Proof.
  intros H. apply int_Return in H as (ds & Hall & Hne & Hlen & Hn).
  pose proof (digits_value_bound ds Hall) as Hb.
  assert (Habs : Z.abs n = Py.digits_value 0 ds) by lia.
  unfold Py.fits. rewrite Habs. apply Z.leb_le.
  assert (1 ≤ String.length ds)%nat by (destruct ds; [done | cbn; lia]).
  pose proof (str_length _ (String.length ds) Hb). lia.
Qed.

(** [int(str(n))] is [n], for the numbers that [str] writes within the
    limit. *)
Lemma int_str (n : Z) : Py.fits n = true → Py.int (Py.str n) = Py.Return n.
Proof.
  unfold Py.fits, Py.str. rewrite Z.leb_le. destruct n as [|p|p]; intros Hfit.
  - reflexivity.
  - change (pretty (Z.abs (Z.pos p))) with (pretty (N.pos p)) in Hfit.
    change (pretty (Z.pos p)) with (pretty (N.pos p)).
    destruct (pretty_pos_digits p) as (Hd & Hne & Hv).
    by rewrite int_all_digits, Hv.
  - change (pretty (Z.abs (Z.neg p))) with (pretty (N.pos p)) in Hfit.
    change (pretty (Z.neg p)) with (String "-" (pretty (N.pos p))).
    destruct (pretty_pos_digits p) as (Hd & Hne & Hv).
    by rewrite int_minus_all_digits, Hv.
Qed.

(** ** Lists of loans as one field of text *)

Lemma contains_comma_cons (c : ascii) (x : string) :
  Py.contains "," (String c x) = false → c ≠ ","%char ∧ Py.contains "," x = false.
Proof.
  cbn [Py.contains Py.startswith]. rewrite orb_false_iff, andb_true_r.
  intros [Hc Hx]. split; [|done]. intros ->. by rewrite bool_decide_true in Hc.
Qed.

(** A piece without a comma is read through to its end. *)
Lemma split_go_comma_free (x rest cur : string) :
  Py.contains "," x = false →
  Py.split_go "," (x +:+ rest) O cur = Py.split_go "," rest O (cur +:+ x).
Proof.
  revert cur. induction x as [|c x IH]; intros cur Hx.
  - by rewrite append_nil_r.
  - apply contains_comma_cons in Hx as [Hc Hx].
    rewrite append_cons. cbn [Py.split_go Py.startswith].
    rewrite bool_decide_false by congruence. cbn [andb].
    rewrite IH by done. by rewrite append_assoc.
Qed.

Lemma split_go_comma (rest cur : string) :
  Py.split_go "," ("," +:+ rest) O cur = cur :: Py.split_go "," rest O "".
Proof. reflexivity. Qed.

(** Joining with commas and splitting at commas gives the list back when
    it has an element and no element has a comma. *)
Lemma split_join (l : list string) :
  l ≠ [] →
  Forall (λ e, Py.contains "," e = false) l →
  Py.split "," (Py.join "," l) = l.
Proof.
  unfold Py.split. induction l as [|x l IH]; [done|]. intros _ Hl.
  apply Forall_cons in Hl as [Hx Hl]. destruct l as [|y l].
  - cbn [Py.join]. rewrite <- (append_nil_r x) at 1.
    by rewrite split_go_comma_free.
  - change (Py.join "," (x :: y :: l)) with (x +:+ "," +:+ Py.join "," (y :: l)).
    rewrite split_go_comma_free by done. cbn [String.append].
    rewrite split_go_comma. by rewrite IH.
Qed.

(** A student with loans, none with a comma in it, is read back as saved;
    a student without loans is read back with one loan, the empty text. *)
Lemma reload_student_spec (s : Student) :
  (borrowed_books s ≠ [] →
   Forall (λ e, Py.contains "," e = false) (borrowed_books s) →
   reload_student s = s)
  ∧ (borrowed_books s = [] →
     reload_student s = mkStudent (student_id s) (name s) [""]).
Proof.
  unfold reload_student, Student_init. split.
  - intros Hne Hl. rewrite split_join by done.
    destruct s as [sid nm [|x l]]; [done | reflexivity].
  - intros ->. reflexivity.
Qed.

(** ** Loading what was saved *)

Lemma universal_newlines_plain (s : string) :
  plain s = true → Py.universal_newlines s = s.
Proof.
  induction s as [|c s IH]; [done|]. cbn [plain Py.universal_newlines].
  rewrite andb_true_iff, negb_true_iff. intros [-> Hs]. by rewrite IH.
Qed.

(** What has been read in text mode has no carriage return left. *)
Lemma universal_newlines_is_plain (s : string) :
  plain (Py.universal_newlines s) = true.
Proof.
  assert (H : plain (Py.universal_newlines s) = true
              ∧ ∀ c, plain (Py.universal_newlines (String c s)) = true);
    [|by destruct H].
  induction s as [|c' s [IH1 IH2]].
  - split; [done|]. intros c. cbn [Py.universal_newlines].
    case_bool_decide as Hc; [done|]. cbn [plain]. by rewrite bool_decide_false.
  - split; [apply IH2|]. intros c.
    change (Py.universal_newlines (String c (String c' s)))
      with (if bool_decide (c = "013"%char)
            then String "010"%char
                   (if bool_decide (c' = "010"%char)
                    then Py.universal_newlines s
                    else Py.universal_newlines (String c' s))
            else String c (Py.universal_newlines (String c' s))).
    case_bool_decide as Hc.
    + cbn [plain]. rewrite bool_decide_false by done. cbn [negb andb].
      case_bool_decide; [apply IH1 | apply IH2].
    + cbn [plain]. rewrite bool_decide_false by done. apply IH2.
Qed.

Lemma universal_newlines_idempotent (s : string) :
  Py.universal_newlines (Py.universal_newlines s) = Py.universal_newlines s.
Proof. apply universal_newlines_plain, universal_newlines_is_plain. Qed.

Lemma all_digits_plain (s : string) : Py.all_digits s = true → plain s = true.
Proof.
  induction s as [|c s IH]; [done|]. cbn [Py.all_digits plain].
  rewrite andb_true_iff. intros [Hc Hs]. rewrite IH by done.
  rewrite bool_decide_false; [done|]. intros ->. by vm_compute in Hc.
Qed.

(** A number is written without a carriage return. *)
Lemma str_plain (n : Z) : plain (Py.str n) = true.
Proof.
  unfold Py.str. destruct n as [|p|p]; [done| |].
  - change (pretty (Z.pos p)) with (pretty (N.pos p)).
    apply all_digits_plain, pretty_pos_digits.
  - change (pretty (Z.neg p)) with (String "-" (pretty (N.pos p))).
    cbn [plain]. rewrite bool_decide_false by done.
    apply all_digits_plain, pretty_pos_digits.
Qed.

(** The row written for a book is read back as the book, its texts as the
    text mode gives them, when its number of copies can be written. *)
Lemma Book_init_reread (b : Book) :
  Py.fits (available_copies b) = true →
  Book_init (map_fields Py.universal_newlines (write_book_row (Book_to_csv b)))
  = Py.Return (reread_book b).
Proof.
  intros Hfit. unfold Book_init, write_book_row, Book_to_csv, reread_book.
  cbn [map_fields BookRow_Row BookRow.book_id BookRow.title BookRow.author
       BookRow.available_copies BookDict.book_id BookDict.title BookDict.author
       BookDict.available_copies].
  rewrite (universal_newlines_plain (Py.str _)) by apply str_plain.
  by rewrite int_str.
Qed.

Lemma map_raise_Book_init (l : list Book) :
  Forall (λ b, Py.fits (available_copies b) = true) l →
  map_raise Book_init
    (map (map_fields Py.universal_newlines)
       (map (λ b, write_book_row (Book_to_csv b)) l))
  = Py.Return (map reread_book l).
Proof.
  induction 1 as [|b l Hb Hl IH]; [done|].
  cbn [map map_raise]. by rewrite Book_init_reread, IH.
Qed.

(** Loading the files of a program whose files follow its memory gives
    the librarian as [reread] has it. *)
Lemma Librarian_init_saved (w : System) :
  saved w → writable (lib w) →
  Librarian_init (disk w) = Py.Return (reread (lib w)).
Proof.
  intros [Hbs Hl] Hfit. unfold Librarian_init, reread.
  assert (Hlogs : load_csv (logs_csv (disk w))
                  = map (map_fields Py.universal_newlines) (logs (lib w))).
  { destruct Hl as [->|[-> ->]]; done. }
  rewrite Hlogs.
  destruct Hbs as [[-> ->]|(-> & -> & -> & ->)]; [|done].
  cbn [load_csv]. rewrite map_raise_Book_init by done. cbn [bind].
  by rewrite !map_map.
Qed.

Lemma persisted_saved (w : System) : persisted w → saved w.
Proof. unfold persisted, saved. intros ->. cbn. auto. Qed.

(** Every operation that changes the state writes it, and the others
    leave memory and files as they are. *)
Lemma step_saved (w : System) (o : op) : saved w → saved (step w o).
Proof.
  intros Hw. destruct o as [bid sid now|bid sid rd now|bid ttl auth copies|sid nm| |];
    cbn [step]; [| | | |done|done].
  - destruct (issue_book_cases w bid sid now)
      as [[-> _]|(i & b & j & s & Hb & Hs & Hc & Hl & Hn & ->)]; [done|].
    by apply persisted_saved.
  - destruct (return_book_cases w bid sid rd now)
      as [[-> _]|(i & b & j & s & first & rest & piece & p & Hb & Hs & Hf & Hp & Hc & ->)];
      [done|].
    by apply persisted_saved.
  - unfold add_book. destruct (negb _); [done|].
    destruct (Py.int copies); [|done].
    destruct Hw as [_ Hl]. split; [by left | exact Hl].
  - unfold add_student. destruct (negb _); [done|].
    destruct Hw as [_ Hl]. split; [by left | exact Hl].
Qed.

(** Whatever has been done since the program started on no files, the
    files follow the memory. *)
Lemma run_fresh_saved (ops : list op) : saved (run fresh ops).
Proof.
  assert (H : ∀ w, saved w → saved (run w ops)).
  { induction ops as [|o ops IH]; intros w Hw; [done|].
    apply IH. by apply step_saved. }
  apply H. split; right; by split_and!.
Qed.

(** ** A restart after registering a student *)

(** C9, at an input where the program departs from it.  After a book and a
    student have been registered the files hold the state, but loading them
    gives the student one loan, the empty text, where there was none: the
    empty field of [students.csv] is split into a list of one empty
    string.  The book and the log are read back as they were. *)
Theorem C9_reload_changes_empty_loans :
  lib registered
  = mkLibrarian [mkBook "B1" "Dune" "Frank Herbert" 2] [mkStudent "S1" "Alice" []] []
  ∧ disk registered
    = mkDisk (Some [BookRow.mk "B1" "Dune" "Frank Herbert" "2"])
             (Some [StudentDict.mk "S1" "Alice" ""])
             None
  ∧ Librarian_init (disk registered)
    = Py.Return
        (mkLibrarian [mkBook "B1" "Dune" "Frank Herbert" 2]
                     [mkStudent "S1" "Alice" [""]] [])
  ∧ Librarian_init (disk registered) ≠ Py.Return (lib registered).
Proof.
  vm_compute. split_and!; try reflexivity. discriminate.
Qed.

(** * Further properties of the program *)

(** ** The text of a loan *)

Lemma contains_char_cons (ch c : ascii) (s : string) :
  Py.contains (String ch "") (String c s) = false →
  c ≠ ch ∧ Py.contains (String ch "") s = false.
Proof.
  cbn [Py.contains Py.startswith]. rewrite orb_false_iff, andb_true_r.
  intros [Hc Hs]. split; [|done]. intros ->. by rewrite bool_decide_true in Hc.
Qed.

Lemma contains_char_append (ch : ascii) (a b : string) :
  Py.contains (String ch "") (a +:+ b)
  = Py.contains (String ch "") a || Py.contains (String ch "") b.
Proof.
  induction a as [|c a IH].
  - change ("" +:+ b) with b. by destruct b.
  - rewrite append_cons. cbn [Py.contains Py.startswith].
    rewrite IH, !andb_true_r. by rewrite orb_assoc.
Qed.

Lemma colon_free_cons (c : ascii) (s : string) :
  colon_free (String c s) = true → c ≠ ":"%char ∧ colon_free s = true.
Proof.
  unfold colon_free. rewrite !negb_true_iff. apply contains_char_cons.
Qed.

(** No piece "Due: " starts inside an identifier without a colon that is
    followed by " (Due: ". *)
Lemma startswith_due_false (c : ascii) (bid rest : string) :
  colon_free bid = true →
  Py.startswith "Due: " (String c (bid +:+ " (Due: " +:+ rest)) = false.
Proof.
  intros Hb.
  change (bool_decide ("D"%char = c)
          && Py.startswith "ue: " (bid +:+ " (Due: " +:+ rest) = false).
  destruct (bool_decide ("D"%char = c)); [cbn [andb]|done].
  destruct bid as [|c1 [|c2 [|c3 b]]].
  - reflexivity.
  - rewrite append_cons. cbn [Py.startswith].
    destruct (bool_decide ("u"%char = c1)); [reflexivity|done].
  - rewrite !append_cons. cbn [Py.startswith].
    destruct (bool_decide ("u"%char = c1)); [cbn [andb]|done].
    destruct (bool_decide ("e"%char = c2)); [reflexivity|done].
  - apply colon_free_cons in Hb as [_ Hb].
    apply colon_free_cons in Hb as [_ Hb].
    apply colon_free_cons in Hb as [Hc3 _].
    rewrite !append_cons. cbn [Py.startswith].
    rewrite (bool_decide_false (":"%char = c3)) by congruence.
    cbn [andb]. by rewrite !andb_false_r.
Qed.

(** Splitting the text of a loan at "Due: " cuts it after the identifier
    and its opening bracket. *)
Lemma split_go_loan_text (bid rest cur : string) :
  colon_free bid = true →
  Py.split_go "Due: " (bid +:+ " (Due: " +:+ rest) O cur
  = (cur +:+ bid +:+ " (") :: Py.split_go "Due: " rest O "".
Proof.
  revert cur. induction bid as [|c bid IH]; intros cur Hb.
  - transitivity (((cur +:+ " ") +:+ "(") :: Py.split_go "Due: " rest O "");
      [reflexivity|].
    by rewrite append_assoc.
  - rewrite append_cons. cbn [Py.split_go].
    rewrite startswith_due_false by (by apply colon_free_cons in Hb as [_ ?]).
    apply colon_free_cons in Hb as [_ Hb].
    rewrite IH by done. by rewrite append_assoc.
Qed.

(** A text in which the first character of the separator does not occur is
    one piece. *)
Lemma split_go_free (c0 : ascii) (sep' s cur : string) :
  Py.contains (String c0 "") s = false →
  Py.split_go (String c0 sep') s O cur = [cur +:+ s].
Proof.
  revert cur. induction s as [|c s IH]; intros cur Hs.
  - by rewrite append_nil_r.
  - apply contains_char_cons in Hs as [Hc Hs].
    cbn [Py.split_go Py.startswith].
    rewrite bool_decide_false by congruence. cbn [andb].
    rewrite IH by done. by rewrite append_assoc.
Qed.

Lemma digit_char_mod10 (k : Z) : Py.is_digit (Date.digit_char (k mod 10)) = true.
Proof. apply digit_char_spec. Z.div_mod_to_equations. lia. Qed.

(** The text of a date has digits and hyphens only. *)
Lemma strftime_lacks (ch : ascii) (d : Date.date) :
  Py.is_digit ch = false → ch ≠ "-"%char →
  Py.contains (String ch "") (Date.strftime d) = false.
Proof.
  intros Hch Hh.
  assert (Hd : ∀ k, bool_decide (ch = Date.digit_char (k mod 10)) = false).
  { intros k. apply bool_decide_eq_false. intros ->.
    by rewrite digit_char_mod10 in Hch. }
  cbv [Date.strftime Date.pad4 Date.pad2 String.append].
  cbn [Py.contains Py.startswith]. rewrite !Hd.
  rewrite !(bool_decide_false (ch = "-"%char)) by done.
  reflexivity.
Qed.

Lemma drop_last_append (s : string) (c : ascii) :
  Py.drop_last (s +:+ String c "") = s.
Proof.
  induction s as [|a s IH]; [done|].
  rewrite append_cons. destruct s as [|b s]; [done|].
  rewrite append_cons in IH |- *. cbn [Py.drop_last] in IH |- *. by rewrite IH.
Qed.

(** What [return_book] takes from the text of a loan is the text of its due
    date. *)
Lemma loan_text_due_date (bid : string) (due : Z) :
  colon_free bid = true →
  Py.split "Due: " (loan_text bid due) !! 1%nat = Some (Date.isoformat due +:+ ")")
  ∧ Py.drop_last (Date.isoformat due +:+ ")") = Date.isoformat due.
Proof.
  intros Hb. split; [|apply drop_last_append].
  unfold Py.split, loan_text. rewrite split_go_loan_text by done.
  rewrite split_go_free; [done|].
  unfold Date.isoformat.
  rewrite contains_char_append, strftime_lacks by done. reflexivity.
Qed.

(** ** Loans stay well formed *)

Lemma list_remove_first_Forall (P : string → Prop) (x : string) (l : list string) :
  Forall P l → Forall P (list_remove_first x l).
Proof.
  induction 1 as [|y l Hy Hl IH]; cbn; [done|].
  case_bool_decide; [done | by constructor].
Qed.

Lemma step_ids_colon_free (w : System) (o : op) :
  registers_colon_free o → ids_colon_free w → ids_colon_free (step w o).
Proof.
  unfold ids_colon_free. intros Ho Hw.
  destruct o as [bid sid now|bid sid rd now|bid ttl auth copies|sid nm| |];
    cbn [step]; [| | | |done|done].
  - destruct (issue_book_cases w bid sid now)
      as [[-> _]|(i & b & j & s & Hb & Hs & Hc & Hl & Hn & ->)]; [done|].
    cbn. apply Forall_insert; [done|]. cbn.
    apply find_book_Some in Hb as [Hb _].
    exact (Forall_lookup_1 _ _ _ _ Hw Hb).
  - destruct (return_book_cases w bid sid rd now)
      as [[-> _]|(i & b & j & s & first & rest & piece & p & Hb & Hs & Hf & Hp & Hc & ->)];
      [done|].
    cbn. apply Forall_insert; [done|]. cbn.
    apply find_book_Some in Hb as [Hb _].
    exact (Forall_lookup_1 _ _ _ _ Hw Hb).
  - unfold add_book. destruct (negb _); [done|].
    destruct (Py.int copies); [|done].
    cbn. apply Forall_app. split; [done|]. by repeat constructor.
  - unfold add_student. by destruct (negb _).
Qed.

Lemma step_loans_well_formed (w : System) (o : op) :
  ids_colon_free w → loans_well_formed w → loans_well_formed (step w o).
Proof.
  unfold ids_colon_free, loans_well_formed. intros Hids Hw.
  destruct o as [bid sid now|bid sid rd now|bid ttl auth copies|sid nm| |];
    cbn [step]; [| | | |done|done].
  - destruct (issue_book_cases w bid sid now)
      as [[-> _]|(i & b & j & s & Hb & Hs & Hc & Hl & Hn & ->)]; [done|].
    cbn. apply Forall_insert; [done|]. cbn.
    apply find_book_Some in Hb as [Hb Hid].
    apply find_student_Some in Hs as [Hs _].
    apply Forall_app. split; [exact (Forall_lookup_1 _ _ _ _ Hw Hs)|].
    repeat constructor. exists bid, (now + 14). split_and!; [|lia..|done].
    rewrite <- Hid. exact (Forall_lookup_1 _ _ _ _ Hids Hb).
  - destruct (return_book_cases w bid sid rd now)
      as [[-> _]|(i & b & j & s & first & rest & piece & p & Hb & Hs & Hf & Hp & Hc & ->)];
      [done|].
    cbn. apply Forall_insert; [done|]. cbn.
    apply find_student_Some in Hs as [Hs _].
    apply list_remove_first_Forall. exact (Forall_lookup_1 _ _ _ _ Hw Hs).
  - unfold add_book. destruct (negb _); [done|].
    by destruct (Py.int copies).
  - unfold add_student. destruct (negb _); [done|].
    cbn. apply Forall_app. split; [done|]. by repeat constructor.
Qed.

Lemma run_well_formed (w : System) (ops : list op) :
  Forall registers_colon_free ops →
  ids_colon_free w → loans_well_formed w →
  ids_colon_free (run w ops) ∧ loans_well_formed (run w ops).
Proof.
  intros Hops. revert w. induction Hops as [|o ops Ho Hops IH]; intros w Hids Hw; [done|].
  cbn [run]. apply IH.
  - by apply step_ids_colon_free.
  - by apply step_loans_well_formed.
Qed.

(** The penalty in terms of the two dates read. *)
Lemma calculate_penalty_parsed (due ret : string) (d1 d2 : Date.date) :
  Date.strptime due = Py.Return d1 →
  Date.strptime ret = Py.Return d2 →
  calculate_penalty due ret
  = Py.Return (penalty_for (Date.toordinal d2 - Date.toordinal d1)).
Proof.
  intros H1 H2. unfold calculate_penalty, penalty_for. rewrite H1, H2. cbn [bind].
  unfold GRACE_PERIOD, BASE_PENALTY_RATE, MAX_PENALTY.
  destruct (Z.leb_spec (Date.toordinal d2 - Date.toordinal d1 - 2) 0);
    case_decide; try lia; [done|]. f_equal. lia.
Qed.

Lemma penalty_for_bounds (days : Z) : 0 ≤ penalty_for days ≤ 50.
Proof. unfold penalty_for. case_decide; lia. Qed.

(** From a well-formed loan [return_book] reads a due date, and with a
    return date that is a date it computes a penalty. *)
Lemma well_formed_loan_penalty (entry rd : string) (d : Date.date) :
  well_formed_loan entry →
  Date.strptime rd = Py.Return d →
  ∃ bid due piece,
    entry = loan_text bid due
    ∧ Py.split "Due: " entry !! 1%nat = Some piece
    ∧ calculate_penalty (Py.drop_last piece) rd
      = Py.Return (penalty_for (Date.toordinal d - due)).
Proof.
  intros (bid & due & Hb & Hdue & ->) Hrd.
  destruct (loan_text_due_date bid due Hb) as [Hsplit Hdrop].
  destruct (strptime_isoformat due Hdue) as (d1 & Hd1 & Ho).
  exists bid, due, (Date.isoformat due +:+ ")"). split_and!; [done..|].
  rewrite Hdrop, (calculate_penalty_parsed _ _ d1 d) by done. by rewrite Ho.
Qed.

(** With well-formed loans and a return date that is a date, [return_book]
    returns a message. *)
Lemma return_book_returns (w : System) (bid sid rd : string) (now : Z) (d : Date.date) :
  loans_well_formed w →
  Date.strptime rd = Py.Return d →
  ∃ msg, fst (return_book w bid sid rd now) = Py.Return msg.
Proof.
  intros Hw Hrd. unfold return_book. cbv zeta.
  destruct (find_book (lib w) bid) as [[i b]|] eqn:Hb; [|by eexists].
  destruct (find_student (lib w) sid) as [[j s]|] eqn:Hs; [|by eexists].
  destruct (List.filter (λ e, Py.contains bid e) (borrowed_books s))
    as [|first rest] eqn:Hf; [by eexists|].
  assert (Hin : In first (borrowed_books s)).
  { assert (H : In first (first :: rest)) by (by left).
    rewrite <- Hf in H. by apply filter_In in H as [H _]. }
  apply find_student_Some in Hs as [Hs _].
  pose proof (Forall_lookup_1 _ _ _ _ Hw Hs) as Hloans. cbn in Hloans.
  rewrite Forall_forall in Hloans.
  apply list_elem_of_In in Hin. specialize (Hloans _ Hin).
  destruct (well_formed_loan_penalty first rd d Hloans Hrd)
    as (bid0 & due0 & piece & _ & -> & ->).
  by eexists.
Qed.

(** X1. The due date survives the text of the loan: for a book identifier
    without a colon and a due date of the calendar, the piece that
    [return_book] cuts out of the loan written by [issue_book] (what follows
    "Due: ", less the closing bracket) is read by [strptime] as the date
    with the ordinal of the due date. *)
Theorem X1_loan_text_round_trip (bid : string) (due : Z) :
  colon_free bid = true →
  1 ≤ due ≤ Date.MAXORDINAL →
  ∃ (piece : string) (d : Date.date),
    Py.split "Due: " (loan_text bid due) !! 1%nat = Some piece
    ∧ Date.strptime (Py.drop_last piece) = Py.Return d
    ∧ Date.valid d = true
    ∧ Date.toordinal d = due.
Proof.
  intros Hb Hdue.
  destruct (loan_text_due_date bid due Hb) as [Hsplit Hdrop].
  destruct (strptime_isoformat due Hdue) as (d & Hd & Ho).
  exists (Date.isoformat due +:+ ")"), d. rewrite Hdrop.
  split_and!; [done | done | by eapply strptime_valid | done].
Qed.

Lemma X1_loan_text_round_trip_witness :
  ∃ (piece : string) (d : Date.date),
    Py.split "Due: " (loan_text "B12" (day_2024_01_01 + 14)) !! 1%nat = Some piece
    ∧ Date.strptime (Py.drop_last piece) = Py.Return d
    ∧ Date.valid d = true
    ∧ Date.toordinal d = day_2024_01_01 + 14.
Proof.
  apply (X1_loan_text_round_trip "B12" (day_2024_01_01 + 14)).
  - reflexivity.
  - unfold day_2024_01_01, Date.MAXORDINAL. lia.
Defined.

(** An identifier that contains "Due: " breaks the reading: the piece taken
    from the loan is not the date, and [return_book] raises. *)
Example return_book_raises_on_due_in_id :
  let w := run fresh [AddBook "Due: 1" "Dune" "Frank Herbert" "1";
                      AddStudent "S1" "Alice";
                      IssueBook "Due: 1" "S1" day_2024_01_01] in
  fst (return_book w "Due: 1" "S1" "2024-01-10" day_2024_01_01)
  = Py.Raise Py.ValueError.
Proof. vm_compute. reflexivity. Qed.



(** ** An issue and the return that follows *)

Lemma contains_loan_text (bid : string) (due : Z) :
  Py.contains bid (loan_text bid due) = true.
Proof.
  apply contains_spec. by exists EmptyString, (" (Due: " +:+ Date.isoformat due +:+ ")").
Qed.

Lemma filter_none (f : string → bool) (l : list string) :
  Forall (λ e, f e = false) l → List.filter f l = [].
Proof.
  induction 1 as [|x l Hx Hl IH]; cbn; [done|]. by rewrite Hx.
Qed.



(** ** All or nothing *)



Example issue_book_overflow :
  fst (issue_book sample "B1" "S1" Date.MAXORDINAL) = Py.Raise Py.OverflowError.
Proof. vm_compute. reflexivity. Qed.

(** ** Copies and loans together *)

Lemma sum_insert {A : Type} (f : A → Z) (l : list A) (i : nat) (x y : A) :
  l !! i = Some y →
  foldr (λ a acc, f a + acc) 0 (<[i:=x]> l)
  = foldr (λ a acc, f a + acc) 0 l - f y + f x.
Proof.
  revert i. induction l as [|a l IH]; intros i Hi; [done|].
  destruct i as [|i].
  - injection Hi as <-. change (<[0%nat:=x]> (a :: l)) with (x :: l).
    simpl foldr. lia.
  - change (l !! i = Some y) in Hi. specialize (IH i Hi).
    change (<[S i:=x]> (a :: l)) with (a :: <[i:=x]> l).
    simpl foldr. lia.
Qed.

Lemma sum_app {A : Type} (f : A → Z) (l k : list A) :
  foldr (λ a acc, f a + acc) 0 (l ++ k)
  = foldr (λ a acc, f a + acc) 0 l + foldr (λ a acc, f a + acc) 0 k.
Proof. induction l as [|a l IH]; cbn; [lia|]. rewrite IH. lia. Qed.

Lemma issue_book_moves_one (w : System) (bid sid : string) (now : Z) :
  issued (fst (issue_book w bid sid now)) = true →
  on_shelf (snd (issue_book w bid sid now)) = on_shelf w - 1
  ∧ on_loan (snd (issue_book w bid sid now)) = on_loan w + 1.
Proof.
  intros Hi.
  destruct (issue_book_cases w bid sid now)
    as [[_ Hno]|(i & b & j & s & Hb & Hs & Hc & Hl & Hn & ->)]; [congruence|].
  apply find_book_Some in Hb as [Hb _]. apply find_student_Some in Hs as [Hs _].
  unfold on_shelf, on_loan, issued_state. cbn [snd lib books students].
  rewrite (sum_insert available_copies _ _ _ _ Hb).
  rewrite (sum_insert (λ s, Z.of_nat (List.length (borrowed_books s))) _ _ _ _ Hs).
  cbn. rewrite length_app. cbn. lia.
Qed.

Lemma return_book_moves_one (w : System) (bid sid rd : string) (now : Z) :
  returned (fst (return_book w bid sid rd now)) = true →
  on_shelf (snd (return_book w bid sid rd now)) = on_shelf w + 1
  ∧ on_loan (snd (return_book w bid sid rd now)) = on_loan w - 1.
Proof.
  intros Hr.
  destruct (return_book_cases w bid sid rd now)
    as [[_ Hno]|(i & b & j & s & first & rest & piece & p & Hb & Hs & Hf & Hp & Hc & ->)];
    [congruence|].
  apply find_book_Some in Hb as [Hb _]. apply find_student_Some in Hs as [Hs _].
  apply list_remove_first_filter_head in Hf as (pre & post & Hl & _ & _ & Hrm).
  unfold on_shelf, on_loan, returned_state. cbn [snd lib books students].
  rewrite (sum_insert available_copies _ _ _ _ Hb).
  rewrite (sum_insert (λ s, Z.of_nat (List.length (borrowed_books s))) _ _ _ _ Hs).
  cbn. rewrite Hrm, Hl, !length_app. cbn. lia.
Qed.

(** X5. Copies on the shelves and loans held are conserved together.  A
    successful issue moves exactly one copy from the
    shelves to the loans and a successful return moves exactly one back,
    whichever loan the return matched; every other call of the two leaves
    both counts alone; registering a book adds its copies to the shelves
    and registering a student or searching adds nothing.  So the sum of
    the two counts changes at each operation by the copies it registers,
    and along any sequence that registers no book it stays the same. *)
Theorem X5_copies_and_loans_conserved :
  (∀ (w : System) (bid sid : string) (now : Z),
     issued (fst (issue_book w bid sid now)) = true →
     on_shelf (snd (issue_book w bid sid now)) = on_shelf w - 1
     ∧ on_loan (snd (issue_book w bid sid now)) = on_loan w + 1)
  ∧ (∀ (w : System) (bid sid rd : string) (now : Z),
       returned (fst (return_book w bid sid rd now)) = true →
       on_shelf (snd (return_book w bid sid rd now)) = on_shelf w + 1
       ∧ on_loan (snd (return_book w bid sid rd now)) = on_loan w - 1)
  ∧ (∀ (w : System) (o : op),
       on_shelf (step w o) + on_loan (step w o)
       = on_shelf w + on_loan w + copies_registered w o)
  ∧ (∀ (w : System) (ops : list op),
       Forall (λ o, match o with AddBook _ _ _ _ => False | _ => True end) ops →
       on_shelf (run w ops) + on_loan (run w ops) = on_shelf w + on_loan w).
Proof.
  assert (Hstep : ∀ (w : System) (o : op),
             on_shelf (step w o) + on_loan (step w o)
             = on_shelf w + on_loan w + copies_registered w o).
  { intros w o.
    destruct o as [bid sid now|bid sid rd now|bid ttl auth copies|sid nm| |];
      cbn [step copies_registered]; [| | | |lia|lia].
    - destruct (issued (fst (issue_book w bid sid now))) eqn:Hi.
      + destruct (issue_book_moves_one w bid sid now Hi). lia.
      + destruct (issue_book_cases w bid sid now)
          as [[-> _]|(i & b & j & s & _ & _ & _ & _ & _ & Heq)]; [lia|].
        rewrite Heq in Hi. cbn [fst] in Hi. by rewrite issued_message in Hi.
    - destruct (returned (fst (return_book w bid sid rd now))) eqn:Hr.
      + destruct (return_book_moves_one w bid sid rd now Hr). lia.
      + destruct (return_book_cases w bid sid rd now)
          as [[-> _]|(i & b & j & s & first & rest & piece & p & _ & _ & _ & _ & _ & Heq)];
          [lia|].
        rewrite Heq in Hr. cbn [fst] in Hr. by rewrite returned_message in Hr.
    - unfold add_book. destruct (negb _) eqn:Hchk; [cbn; lia|].
      apply negb_false_iff in Hchk. rewrite !andb_true_iff in Hchk.
      destruct Hchk as [_ Hd].
      destruct (Py.int copies) as [n|e] eqn:Hint; [|cbn; lia].
      destruct (int_isdigit_Return copies n Hd Hint) as (_ & _ & -> & Hn).
      unfold on_shelf, on_loan. cbn. rewrite sum_app. cbn. lia.
    - unfold add_student. destruct (negb _); [cbn; lia|].
      unfold on_shelf, on_loan. cbn. rewrite sum_app. cbn. lia. }
  split_and!.
  - apply issue_book_moves_one.
  - apply return_book_moves_one.
  - exact Hstep.
  - intros w ops Hops. revert w.
    induction Hops as [|o ops Ho Hops IH]; intros w; [done|].
    cbn [run]. rewrite IH, Hstep. destruct o; cbn [copies_registered]; (done || lia).
Qed.

Lemma X5_copies_and_loans_conserved_witness :
  (on_shelf (snd (issue_book sample "B12" "S1" day_2024_01_01)) = on_shelf sample - 1
   ∧ on_loan (snd (issue_book sample "B12" "S1" day_2024_01_01)) = on_loan sample + 1)
  ∧ (on_shelf (snd (return_book sample "B1" "S3" "2024-01-10" day_2024_01_01))
     = on_shelf sample + 1
     ∧ on_loan (snd (return_book sample "B1" "S3" "2024-01-10" day_2024_01_01))
       = on_loan sample - 1)
  ∧ on_shelf (run sample [IssueBook "B12" "S1" day_2024_01_01;
                          ReturnBook "B1" "S3" "2024-01-10" day_2024_01_01;
                          AddStudent "S5" "Eve"])
    + on_loan (run sample [IssueBook "B12" "S1" day_2024_01_01;
                           ReturnBook "B1" "S3" "2024-01-10" day_2024_01_01;
                           AddStudent "S5" "Eve"])
    = on_shelf sample + on_loan sample.
Proof.
  destruct X5_copies_and_loans_conserved as (Hissue & Hreturn & _ & Hrun).
  split; [|split].
  - apply Hissue. vm_compute. reflexivity.
  - apply Hreturn. vm_compute. reflexivity.
  - apply Hrun. repeat constructor.
Defined.

(** ** More on the penalty *)

Lemma strptime_raises_ValueError (s : string) (e : Py.exn) :
  Date.strptime s = Py.Raise e → e = Py.ValueError.
Proof.
  unfold Date.strptime. intros H. repeat case_match; congruence.
Qed.

(** X6. [calculate_penalty] returns a penalty exactly when both texts read
    as dates of the calendar; otherwise it raises [ValueError], and it
    raises nothing else.  The due date is read first: when it is not a
    date the call raises whatever the return date is. *)
Theorem X6_calculate_penalty_errors (due ret : string) :
  ((∃ p, calculate_penalty due ret = Py.Return p)
   ↔ (∃ d1 d2, Date.strptime due = Py.Return d1 ∧ Date.strptime ret = Py.Return d2))
  ∧ (calculate_penalty due ret = Py.Raise Py.ValueError
     ↔ (∃ e, Date.strptime due = Py.Raise e) ∨ (∃ e, Date.strptime ret = Py.Raise e))
  ∧ (∀ e, calculate_penalty due ret = Py.Raise e → e = Py.ValueError).
Proof.
  unfold calculate_penalty.
  destruct (Date.strptime due) as [d1|e1] eqn:H1.
  - destruct (Date.strptime ret) as [d2|e2] eqn:H2; cbn [bind].
    + split_and!.
      * split; [by eauto|]. intros _.
        destruct (_ <=? 0); by eexists.
      * split; [by destruct (_ <=? 0)|]. by intros [[e He]|[e He]].
      * intros e. by destruct (_ <=? 0).
    + apply strptime_raises_ValueError in H2 as ->. split_and!.
      * split; [by intros [p Hp]|]. by intros (? & ? & _ & ?).
      * split; [by eauto|done].
      * by intros e [= <-].
  - apply strptime_raises_ValueError in H1 as ->. cbn [bind]. split_and!.
    + split; [by intros [p Hp]|]. by intros (? & ? & ? & _).
    + split; [by eauto|done].
    + by intros e [= <-].
Qed.

(** X7. The penalty by the days between the two dates: nothing up to two
    days after the due date, 50 from the fifty-second day on, and in
    between the days less two.  A later return never costs less and a later
    due date never costs more. *)
Theorem X7_penalty_thresholds_and_order
    (due ret : string) (d1 d2 : Date.date) :
  Date.strptime due = Py.Return d1 →
  Date.strptime ret = Py.Return d2 →
  let days := Date.toordinal d2 - Date.toordinal d1 in
  ∃ p, calculate_penalty due ret = Py.Return p
       ∧ (p = 0 ↔ days ≤ 2)
       ∧ (p = 50 ↔ 52 ≤ days)
       ∧ (2 < days < 52 → p = days - 2)
       ∧ (∀ ret' d2' p',
            Date.strptime ret' = Py.Return d2' →
            Date.toordinal d2 ≤ Date.toordinal d2' →
            calculate_penalty due ret' = Py.Return p' → p ≤ p')
       ∧ (∀ due' d1' p',
            Date.strptime due' = Py.Return d1' →
            Date.toordinal d1 ≤ Date.toordinal d1' →
            calculate_penalty due' ret = Py.Return p' → p' ≤ p).
Proof.
  intros H1 H2 days. exists (penalty_for days).
  split; [by apply calculate_penalty_parsed|].
  unfold penalty_for. split_and!.
  - case_decide; lia.
  - case_decide; lia.
  - case_decide; lia.
  - intros ret' d2' p' H2' Hle Hp'.
    rewrite (calculate_penalty_parsed _ _ d1 d2' H1 H2') in Hp'.
    injection Hp' as <-. unfold penalty_for. repeat case_decide; lia.
  - intros due' d1' p' H1' Hle Hp'.
    rewrite (calculate_penalty_parsed _ _ d1' d2 H1' H2) in Hp'.
    injection Hp' as <-. unfold penalty_for. repeat case_decide; lia.
Qed.

Lemma X7_penalty_thresholds_and_order_witness :
  let days := Date.toordinal (Date.mkdate 2024 3 5) - Date.toordinal (Date.mkdate 2024 2 28) in
  ∃ p, calculate_penalty "2024-02-28" "2024-3-5" = Py.Return p
       ∧ (p = 0 ↔ days ≤ 2)
       ∧ (p = 50 ↔ 52 ≤ days)
       ∧ (2 < days < 52 → p = days - 2)
       ∧ (∀ ret' d2' p',
            Date.strptime ret' = Py.Return d2' →
            Date.toordinal (Date.mkdate 2024 3 5) ≤ Date.toordinal d2' →
            calculate_penalty "2024-02-28" ret' = Py.Return p' → p ≤ p')
       ∧ (∀ due' d1' p',
            Date.strptime due' = Py.Return d1' →
            Date.toordinal (Date.mkdate 2024 2 28) ≤ Date.toordinal d1' →
            calculate_penalty due' "2024-3-5" = Py.Return p' → p' ≤ p).
Proof.
  apply (X7_penalty_thresholds_and_order "2024-02-28" "2024-3-5"
           (Date.mkdate 2024 2 28) (Date.mkdate 2024 3 5)); reflexivity.
Defined.

(** ** The files follow the memory *)

Lemma map_ext_Forall {A B : Type} (f g : A → B) (l : list A) :
  Forall (λ x, f x = g x) l → map f l = map g l.
Proof. induction 1 as [|x l Hx _ IH]; [done|]. cbn [map]. by rewrite Hx, IH. Qed.

Lemma plain_append (a b : string) : plain (a +:+ b) = plain a && plain b.
Proof.
  induction a as [|c a IH]; [done|].
  rewrite append_cons. cbn [plain]. by rewrite IH, andb_assoc.
Qed.

Lemma plain_digit_char (k : Z) (s : string) :
  plain (String (Date.digit_char (k mod 10)) s) = plain s.
Proof.
  cbn [plain]. rewrite bool_decide_false; [done|].
  intros H. pose proof (digit_char_mod10 k) as Hd. rewrite H in Hd. by vm_compute in Hd.
Qed.

(** The text of a day has no carriage return. *)
Lemma plain_isoformat (n : Z) : plain (Date.isoformat n) = true.
Proof.
  unfold Date.isoformat, Date.strftime, Date.pad4, Date.pad2.
  rewrite !plain_append, !plain_digit_char. reflexivity.
Qed.

Lemma plain_loan_text (bid : string) (due : Z) :
  plain bid = true → plain (loan_text bid due) = true.
Proof.
  intros Hb. unfold loan_text. by rewrite !plain_append, Hb, plain_isoformat.
Qed.

Lemma plain_join (l : list string) :
  forallb plain l = true → plain (Py.join "," l) = true.
Proof.
  induction l as [|x l IH]; [done|]. cbn [forallb].
  rewrite andb_true_iff. intros [Hx Hl]. destruct l as [|y l]; [done|].
  change (Py.join "," (x :: y :: l)) with (x +:+ "," +:+ Py.join "," (y :: l)).
  by rewrite !plain_append, Hx, IH.
Qed.

Lemma forallb_list_remove_first (f : string → bool) (x : string) (l : list string) :
  forallb f l = true → forallb f (list_remove_first x l) = true.
Proof.
  induction l as [|y l IH]; [done|]. cbn [forallb list_remove_first].
  rewrite andb_true_iff. intros [Hy Hl].
  case_bool_decide; [done|]. cbn [forallb]. by rewrite Hy, IH.
Qed.

(** The rows of a librarian without carriage returns are read as written. *)
Lemma map_fields_plain_book (b : Book) :
  plain_book b = true →
  map_fields Py.universal_newlines (write_book_row (Book_to_csv b))
  = write_book_row (Book_to_csv b).
Proof.
  unfold plain_book. rewrite !andb_true_iff. intros [[Hi Ht] Ha].
  unfold write_book_row, Book_to_csv, map_fields, BookRow_Row.
  cbn [BookRow.book_id BookRow.title BookRow.author
       BookRow.available_copies BookDict.book_id BookDict.title BookDict.author
       BookDict.available_copies].
  by rewrite !universal_newlines_plain by (done || apply str_plain).
Qed.

Lemma map_fields_plain_student (s : Student) :
  plain_student s = true →
  map_fields Py.universal_newlines (Student_to_csv s) = Student_to_csv s.
Proof.
  unfold plain_student. rewrite !andb_true_iff. intros [[Hi Hn] Hl].
  unfold Student_to_csv, map_fields, StudentDict_Row.
  cbn [StudentDict.student_id StudentDict.name StudentDict.borrowed_books].
  by rewrite !universal_newlines_plain by (done || by apply plain_join).
Qed.

Lemma map_fields_plain_entry (e : Log.entry) :
  plain_entry e = true → map_fields Py.universal_newlines e = e.
Proof.
  unfold plain_entry. rewrite !andb_true_iff. intros [[[Ht Hb] Hs] Hd].
  destruct e as [t b s d]. cbn in *.
  unfold map_fields, Log_Row. cbn.
  by rewrite !universal_newlines_plain by done.
Qed.

(** No operation brings a carriage return into the texts in memory unless
    a text registered has one. *)
Lemma step_plain (w : System) (o : op) :
  plain_librarian (lib w) → registers_plain o → plain_librarian (lib (step w o)).
Proof.
  intros (HB & HS & HL) Ho.
  destruct o as [bid sid now|bid sid rd now|bid ttl auth copies|sid nm| |];
    cbn [step]; [| | | |done|done].
  - destruct (issue_book_cases w bid sid now)
      as [[-> _]|(i & b & j & s & Hb & Hs & Hc & Hl & Hn & ->)]; [done|].
    apply find_book_Some in Hb as [Hb <-]. apply find_student_Some in Hs as [Hs <-].
    pose proof (Forall_lookup_1 _ _ _ _ HB Hb) as Hpb.
    pose proof (Forall_lookup_1 _ _ _ _ HS Hs) as Hps.
    cbn beta in Hpb, Hps. unfold plain_book in Hpb. unfold plain_student in Hps.
    rewrite !andb_true_iff in Hpb, Hps.
    destruct Hpb as [[Hbi Hbt] Hba], Hps as [[Hsi Hsn] Hsl].
    unfold issued_state. cbn [lib books students logs]. split_and!.
    + apply Forall_insert; [done|]. unfold plain_book. cbn. by rewrite Hbi, Hbt, Hba.
    + apply Forall_insert; [done|]. unfold plain_student. cbn.
      rewrite Hsi, Hsn, forallb_app, Hsl. cbn. by rewrite plain_loan_text.
    + apply Forall_app. split; [done|]. constructor; [|done].
      unfold plain_entry. cbn. by rewrite Hbi, Hsi, plain_isoformat.
  - destruct (return_book_cases w bid sid rd now)
      as [[-> _]|(i & b & j & s & first & rest & piece & p & Hb & Hs & Hf & Hp & Hc & ->)];
      [done|].
    apply find_book_Some in Hb as [Hb <-]. apply find_student_Some in Hs as [Hs <-].
    pose proof (Forall_lookup_1 _ _ _ _ HB Hb) as Hpb.
    pose proof (Forall_lookup_1 _ _ _ _ HS Hs) as Hps.
    cbn beta in Hpb, Hps. unfold plain_book in Hpb. unfold plain_student in Hps.
    rewrite !andb_true_iff in Hpb, Hps.
    destruct Hpb as [[Hbi Hbt] Hba], Hps as [[Hsi Hsn] Hsl].
    unfold returned_state. cbn [lib books students logs]. split_and!.
    + apply Forall_insert; [done|]. unfold plain_book. cbn. by rewrite Hbi, Hbt, Hba.
    + apply Forall_insert; [done|]. unfold plain_student. cbn.
      by rewrite Hsi, Hsn, forallb_list_remove_first.
    + apply Forall_app. split; [done|]. constructor; [|done].
      unfold plain_entry. cbn. by rewrite Hbi, Hsi, plain_isoformat.
  - unfold add_book. destruct (negb _); [done|].
    destruct (Py.int copies); [|done]. cbn. split_and!; [|done..].
    apply Forall_app. split; [done|]. by constructor.
  - unfold add_student. destruct (negb _); [done|]. cbn. split_and!; [done| |done].
    apply Forall_app. split; [done|]. constructor; [|done].
    unfold plain_student. cbn. cbn in Ho. by rewrite Ho.
Qed.

Lemma run_fresh_plain (ops : list op) :
  Forall registers_plain ops → plain_librarian (lib (run fresh ops)).
Proof.
  assert (H : ∀ w, plain_librarian (lib w) → Forall registers_plain ops →
                   plain_librarian (lib (run w ops))).
  { induction ops as [|o ops IH]; intros w Hw Hops; [done|].
    apply Forall_cons in Hops as [Ho Hops]. apply IH; [|done]. by apply step_plain. }
  apply H. by split_and!.
Qed.

(** Reading the files of a program whose files follow its memory. *)
Lemma load_csv_saved (w : System) :
  saved w →
  load_csv (books_csv (disk w))
  = map (map_fields Py.universal_newlines)
        (map (λ b, write_book_row (Book_to_csv b)) (books (lib w)))
  ∧ load_csv (students_csv (disk w))
    = map (map_fields Py.universal_newlines) (map Student_to_csv (students (lib w)))
  ∧ load_csv (logs_csv (disk w))
    = map (map_fields Py.universal_newlines) (logs (lib w)).
Proof.
  intros [Hbs Hl]. split_and!.
  - by destruct Hbs as [[-> _]|(-> & _ & -> & _)].
  - by destruct Hbs as [[_ ->]|(_ & -> & _ & ->)].
  - by destruct Hl as [->|[-> ->]].
Qed.

Lemma rows_plain (L : Librarian) :
  plain_librarian L →
  map (map_fields Py.universal_newlines)
      (map (λ b, write_book_row (Book_to_csv b)) (books L))
  = map (λ b, write_book_row (Book_to_csv b)) (books L)
  ∧ map (map_fields Py.universal_newlines) (map Student_to_csv (students L))
    = map Student_to_csv (students L)
  ∧ map (map_fields Py.universal_newlines) (logs L) = logs L.
Proof.
  intros (HB & HS & HL). rewrite !map_map. split_and!.
  - apply map_ext_Forall. eapply Forall_impl; [exact HB|]. apply map_fields_plain_book.
  - apply map_ext_Forall. eapply Forall_impl; [exact HS|]. apply map_fields_plain_student.
  - rewrite <- (map_id (logs L)) at 2. apply map_ext_Forall.
    eapply Forall_impl; [exact HL|]. apply map_fields_plain_entry.
Qed.


(** ** Restarting *)

Lemma split_go_not_nil (sep s : string) (skip : nat) (cur : string) :
  Py.split_go sep s skip cur ≠ [].
Proof.
  revert skip cur. induction s as [|c s IH]; intros skip cur; cbn [Py.split_go]; [done|].
  destruct skip; [|apply IH]. destruct (Py.startswith sep _); [done | apply IH].
Qed.

Lemma join_cons (sep x : string) (l : list string) :
  l ≠ [] → Py.join sep (x :: l) = x +:+ sep +:+ Py.join sep l.
Proof. by destruct l. Qed.

(** Joining the pieces of a text split at commas gives the text back. *)
Lemma join_split_go (s cur : string) :
  Py.join "," (Py.split_go "," s O cur) = cur +:+ s.
Proof.
  revert cur. induction s as [|c s IH]; intros cur.
  - cbn. by rewrite append_nil_r.
  - cbn [Py.split_go Py.startswith]. rewrite andb_true_r.
    case_bool_decide as Hc.
    + subst c. change (Nat.pred (String.length ",")) with O.
      rewrite join_cons by apply split_go_not_nil. by rewrite IH.
    + by rewrite IH, append_assoc.
Qed.

Lemma join_split (s : string) : Py.join "," (Py.split "," s) = s.
Proof. unfold Py.split. by rewrite join_split_go. Qed.

(** The pieces of a text split at commas have no comma. *)
Lemma split_go_comma_pieces (s cur : string) :
  Py.contains "," cur = false →
  Forall (λ e, Py.contains "," e = false) (Py.split_go "," s O cur).
Proof.
  revert cur. induction s as [|c s IH]; intros cur Hcur.
  - by repeat constructor.
  - cbn [Py.split_go Py.startswith]. rewrite andb_true_r.
    case_bool_decide as Hc.
    + constructor; [done|]. by apply IH.
    + apply IH. rewrite contains_char_append, Hcur. cbn.
      rewrite bool_decide_false by done. reflexivity.
Qed.

(** A student read from a row is written back as that row. *)
Lemma Student_to_csv_init (sid nm field : string) :
  Student_to_csv (Student_init sid nm (Some (Py.split "," field)))
  = StudentDict.mk sid nm field.
Proof.
  unfold Student_to_csv, Student_init. cbn [student_id name borrowed_books].
  f_equal. rewrite <- (join_split field) at 2.
  by destruct (Py.split "," field).
Qed.

Lemma join_borrowed_init (sid nm field : string) :
  Py.join "," (borrowed_books (Student_init sid nm (Some (Py.split "," field)))) = field.
Proof.
  exact (f_equal StudentDict.borrowed_books (Student_to_csv_init sid nm field)).
Qed.

Lemma reload_student_idempotent (s : Student) :
  reload_student (reload_student s) = reload_student s.
Proof.
  unfold reload_student. by rewrite join_borrowed_init.
Qed.

Lemma reload_student_fixed (s : Student) :
  reload_student s = s ↔
  borrowed_books s ≠ [] ∧ Forall (λ e, Py.contains "," e = false) (borrowed_books s).
Proof.
  split; [|intros [? ?]; by apply reload_student_spec].
  intros H. apply (f_equal borrowed_books) in H.
  unfold reload_student, Student_init in H. cbn [borrowed_books] in H.
  pose proof (split_go_not_nil "," (Py.join "," (borrowed_books s)) O "") as Hne.
  pose proof (split_go_comma_pieces (Py.join "," (borrowed_books s)) "" eq_refl) as Hfree.
  fold (Py.split "," (Py.join "," (borrowed_books s))) in Hne, Hfree.
  destruct (Py.split "," (Py.join "," (borrowed_books s))) as [|x l] eqn:E; [done|].
  by rewrite <- H.
Qed.

Lemma reread_book_plain (b : Book) : plain_book b = true → reread_book b = b.
Proof.
  unfold plain_book, reread_book. rewrite !andb_true_iff. intros [[Hi Ht] Ha].
  rewrite !universal_newlines_plain by done. by destruct b.
Qed.

Lemma reread_student_plain (s : Student) :
  plain_student s = true → reread_student s = reload_student s.
Proof.
  unfold plain_student, reread_student, reload_student.
  rewrite !andb_true_iff. intros [[Hi Hn] Hl].
  by rewrite !universal_newlines_plain by (done || by apply plain_join).
Qed.

Lemma reread_plain (L : Librarian) :
  plain_librarian L →
  reread L = mkLibrarian (books L) (map reload_student (students L)) (logs L).
Proof.
  intros (HB & HS & HL). unfold reread. f_equal.
  - rewrite <- (map_id (books L)) at 2. apply map_ext_Forall.
    eapply Forall_impl; [exact HB|]. apply reread_book_plain.
  - apply map_ext_Forall. eapply Forall_impl; [exact HS|]. apply reread_student_plain.
  - rewrite <- (map_id (logs L)) at 2. apply map_ext_Forall.
    eapply Forall_impl; [exact HL|]. apply map_fields_plain_entry.
Qed.

(** In every state reached from the start without a carriage return in
    the texts registered, and with numbers of copies that [str] writes, a
    restart reads back the books and the log as they were, and the
    students up to [reload_student]. *)
Lemma restart_after (ops : list op) :
  let w := run fresh ops in
  Forall registers_plain ops → writable (lib w) →
  Librarian_init (disk w)
  = Py.Return (mkLibrarian (books (lib w))
                           (map reload_student (students (lib w)))
                           (logs (lib w))).
Proof.
  intros w Hops Hfit.
  rewrite Librarian_init_saved by (apply run_fresh_saved || done).
  f_equal. by apply reread_plain, run_fresh_plain.
Qed.



Lemma load_csv_save_csv {A : Type} `{Row A} (rows : list A) :
  load_csv (save_csv rows) = map (map_fields Py.universal_newlines) rows.
Proof. reflexivity. Qed.

Lemma map_fields_students_idempotent (file : option (list StudentDict.t)) :
  map (map_fields Py.universal_newlines) (load_csv file) = load_csv file.
Proof.
  destruct file as [rows|]; [|done]. cbn [load_csv]. rewrite map_map.
  apply map_ext. intros row. unfold map_fields, StudentDict_Row.
  cbn [StudentDict.student_id StudentDict.name StudentDict.borrowed_books].
  by rewrite !universal_newlines_idempotent.
Qed.

(** A book loaded from a file has a number of copies that [str] writes,
    and texts that a second reading leaves alone. *)
Lemma Book_init_loaded (row : BookRow.t) (b : Book) :
  Book_init (map_fields Py.universal_newlines row) = Py.Return b →
  Py.fits (available_copies b) = true ∧ reread_book b = b.
Proof.
  unfold Book_init, map_fields, BookRow_Row.
  cbn [BookRow.book_id BookRow.title BookRow.author BookRow.available_copies].
  destruct (Py.int _) as [n|e] eqn:Hint; [|done]. cbn [bind]. intros [= <-].
  split; [by eapply int_fits|].
  unfold reread_book. cbn [book_id title author available_copies].
  by rewrite !universal_newlines_idempotent.
Qed.

Lemma loaded_books (file : option (list BookRow.t)) (bs : list Book) :
  map_raise Book_init (load_csv file) = Py.Return bs →
  Forall (λ b, Py.fits (available_copies b) = true) bs
  ∧ map reread_book bs = bs.
Proof.
  destruct file as [rows|]; cbn [load_csv]; [|by intros [= <-]].
  revert bs. induction rows as [|row rows IH]; intros bs; cbn [map map_raise].
  - by intros [= <-].
  - destruct (Book_init _) as [b|e] eqn:Hb; [|done]. cbn [bind].
    destruct (map_raise _ _) as [bs'|e]; [|done]. cbn [bind]. intros [= <-].
    destruct (IH bs' eq_refl) as [Hfit Hre].
    destruct (Book_init_loaded row b Hb) as [Hfb Hrb].
    split; [by constructor|]. cbn [map]. by rewrite Hrb, Hre.
Qed.

(** X10. What has been loaded is stable: when the files load into a
    librarian, saving that librarian and loading again gives the same
    librarian, whatever the files held.  In particular a student row is
    written back as it was read, and a second restart changes nothing that
    the first did not. *)
Theorem X10_load_save_load (d : Disk) (L : Librarian) :
  Librarian_init d = Py.Return L →
  Librarian_init (disk (save_data (mkSystem L d))) = Py.Return L
  ∧ students_csv (disk (save_data (mkSystem L d)))
    = Some (load_csv (students_csv d))
  ∧ Forall (λ s, reload_student s = s) (students L).
Proof.
  unfold Librarian_init. intros H.
  destruct (map_raise Book_init (load_csv (books_csv d))) as [bs|e] eqn:Hb; [|done].
  cbn [bind] in H. injection H as <-.
  destruct (loaded_books _ _ Hb) as [Hfit Hre].
  assert (Hrows : map Student_to_csv
                    (map (λ s, Student_init (StudentDict.student_id s) (StudentDict.name s)
                                 (Some (Py.split "," (StudentDict.borrowed_books s))))
                         (load_csv (students_csv d)))
                  = load_csv (students_csv d)).
  { rewrite map_map. rewrite <- (map_id (load_csv (students_csv d))) at 2.
    apply map_ext. intros row. rewrite Student_to_csv_init. by destruct row. }
  cbn [save_data disk lib books students logs books_csv students_csv logs_csv save_csv].
  rewrite Hrows, !load_csv_save_csv.
  rewrite map_raise_Book_init by done. cbn [bind].
  rewrite Hre, map_fields_students_idempotent. split_and!; [done..|].
  apply Forall_forall. intros s Hs. apply list_elem_of_In, in_map_iff in Hs as (row & <- & _).
  unfold reload_student. by rewrite join_borrowed_init.
Qed.

Lemma X10_load_save_load_witness :
  let d := mkDisk (Some [BookRow.mk "B1" "Dune" "Frank Herbert" "+02"])
                  (Some [StudentDict.mk "S1" "Alice" ""; StudentDict.mk "S2" "Bob" "a,,b"])
                  None in
  let L := mkLibrarian [mkBook "B1" "Dune" "Frank Herbert" 2]
                       [mkStudent "S1" "Alice" [""]; mkStudent "S2" "Bob" ["a"; ""; "b"]]
                       [] in
  Librarian_init (disk (save_data (mkSystem L d))) = Py.Return L
  ∧ students_csv (disk (save_data (mkSystem L d))) = Some (load_csv (students_csv d))
  ∧ Forall (λ s, reload_student s = s) (students L).
Proof.
  apply (X10_load_save_load
           (mkDisk (Some [BookRow.mk "B1" "Dune" "Frank Herbert" "+02"])
                   (Some [StudentDict.mk "S1" "Alice" ""; StudentDict.mk "S2" "Bob" "a,,b"])
                   None)).
  vm_compute. reflexivity.
Defined.

(** ** Loading the books *)

(** X11. A book written to its row and read again by [Book.__init__] is
    the same book, with the same number of copies whatever its sign
    ([int(str(n))] is [n]), when that number is one that [str] writes (at
    most 4300 digits).  A number of copies put in the file by hand is read
    as [int] reads it: with blanks around it, a sign or underscores between
    its digits it still loads, and a negative number is accepted; an
    empty field, a decimal point, a doubled underscore or a superscript
    digit raise [ValueError].  Missing files give an empty library. *)
Theorem X11_loading_books (b : Book) :
  Py.fits (available_copies b) = true →
  Book_init (write_book_row (Book_to_csv b)) = Py.Return b
  ∧ Py.int (Py.str (available_copies b)) = Py.Return (available_copies b)
  ∧ (∀ i t a : string,
       Book_init (BookRow.mk i t a " 7 ") = Py.Return (mkBook i t a 7)
       ∧ Book_init (BookRow.mk i t a "1_000") = Py.Return (mkBook i t a 1000)
       ∧ Book_init (BookRow.mk i t a "+02") = Py.Return (mkBook i t a 2)
       ∧ Book_init (BookRow.mk i t a "-3") = Py.Return (mkBook i t a (-3))
       ∧ Book_init (BookRow.mk i t a "") = Py.Raise Py.ValueError
       ∧ Book_init (BookRow.mk i t a "2.0") = Py.Raise Py.ValueError
       ∧ Book_init (BookRow.mk i t a "1__0") = Py.Raise Py.ValueError
       ∧ Book_init (BookRow.mk i t a "- 3") = Py.Raise Py.ValueError
       ∧ Book_init (BookRow.mk i t a (String "178" "")) = Py.Raise Py.ValueError)
  ∧ Librarian_init empty_disk = Py.Return (mkLibrarian [] [] []).
Proof.
  intros Hfit. split_and!.
  - unfold Book_init, write_book_row, Book_to_csv. cbn.
    rewrite int_str by done. cbn. by destruct b.
  - by apply int_str.
  - intros i t a. by vm_compute.
  - reflexivity.
Qed.

Lemma X11_loading_books_witness :
  let b := mkBook "B1" "Dune" "Frank Herbert" (-12) in
  write_book_row (Book_to_csv b) = BookRow.mk "B1" "Dune" "Frank Herbert" "-12"
  ∧ Book_init (write_book_row (Book_to_csv b)) = Py.Return b.
Proof.
  split; [reflexivity|].
  refine (proj1 (X11_loading_books (mkBook "B1" "Dune" "Frank Herbert" (-12)) _)).
  reflexivity.
Defined.

(** ** Registration *)

Lemma truthy_spec (s : string) : truthy s = true ↔ s ≠ "".
Proof. by destruct s. Qed.

Lemma list_find_snoc {A : Type} (P : A → Prop) `{∀ x, Decision (P x)}
    (l : list A) (x : A) :
  list_find P (l ++ [x])
  = match list_find P l with
    | Some r => Some r
    | None => if decide (P x) then Some (List.length l, x) else None
    end.
Proof.
  destruct (list_find P l) as [[i y]|] eqn:Hl.
  - by apply list_find_app_l.
  - rewrite list_find_app_r by done. cbn. by case_decide.
Qed.





(** ** The handlers of the window *)

Lemma all_digits_lacks (ch : ascii) (s : string) :
  Py.is_digit ch = false → Py.all_digits s = true →
  Py.contains (String ch "") s = false.
Proof.
  intros Hch. induction s as [|c s IH]; [done|].
  cbn [Py.all_digits Py.contains Py.startswith]. rewrite andb_true_iff, andb_true_r.
  intros [Hc Hs]. rewrite IH by done. rewrite orb_false_r.
  apply bool_decide_eq_false. intros ->. congruence.
Qed.

Lemma str_all_digits (n : Z) : 0 ≤ n → Py.all_digits (Py.str n) = true.
Proof.
  intros Hn. unfold Py.str. destruct n as [|p|p]; [done| |lia].
  change (pretty (Z.pos p)) with (pretty (N.pos p)).
  destruct (pretty_pos_digits p) as [Hd _].
  by destruct (pretty (N.pos p)).
Qed.

Lemma calculate_penalty_bounds (due ret : string) (p : Z) :
  calculate_penalty due ret = Py.Return p → 0 ≤ p ≤ 50.
Proof.
  unfold calculate_penalty.
  destruct (Date.strptime due); [|done]. destruct (Date.strptime ret); [|done].
  cbn [bind]. unfold GRACE_PERIOD, BASE_PENALTY_RATE, MAX_PENALTY.
  destruct (Z.leb_spec (Date.toordinal a0 - Date.toordinal a - 2) 0);
    intros [= <-]; lia.
Qed.

(** The last piece of the message of a successful issue is the due date. *)
Lemma split_issued_message (due : Z) :
  last_item (Py.split "Due date: "
               ("Book issued successfully. Due date: " +:+ Date.isoformat due))
  = Py.Return (Date.isoformat due).
Proof.
  unfold Py.split.
  transitivity (last_item ("Book issued successfully. "
                           :: Py.split_go "Due date: " (Date.isoformat due) O ""));
    [reflexivity|].
  rewrite split_go_free; [done|]. by apply strftime_lacks.
Qed.

(** The last piece of the message of a successful return is the penalty. *)
Lemma split_returned_message (p : Z) :
  0 ≤ p →
  last_item (Py.split "Penalty: $"
               ("Book returned successfully. Penalty: $" +:+ Py.str p))
  = Py.Return (Py.str p).
Proof.
  intros Hp. unfold Py.split.
  transitivity (last_item ("Book returned successfully. "
                           :: Py.split_go "Penalty: $" (Py.str p) O ""));
    [reflexivity|].
  rewrite split_go_free; [done|].
  apply all_digits_lacks; [done | by apply str_all_digits].
Qed.

Lemma set_librarian_same (g : LibraryGUI) : set_librarian g (librarian g) = g.
Proof. by destruct g. Qed.





(** ** From registration to the first loan *)


